(** * AOPS-Answer-Scraper: the extraction core of [src/main.py]

    A shallow embedding of [scrape_answers], [fetch_solution_sections] and
    [extract_solution_content], over a parse tree with the operations of
    BeautifulSoup that the three functions call. *)

From Stdlib Require Import List String Ascii NArith ZArith Bool Lia.
From Stdlib Require DecimalString DecimalZ.
Import ListNotations.
Local Open Scope string_scope.
Local Open Scope list_scope.
Set Warnings "-register-all".

(** ** Python strings *)

(** A Python [str] is a sequence of Unicode code points. *)
Definition pystr := list N.

(** A literal of the source, written as an ASCII string. *)
Definition py (x : string) : pystr :=
  map N_of_ascii (list_ascii_of_string x).

(** [str.isspace] of one code point: what [str.strip()] removes. *)
Definition isspace (c : N) : bool :=
  ((9 <=? c) && (c <=? 13) || (28 <=? c) && (c <=? 32)
   || (c =? 133) || (c =? 160) || (c =? 5760)
   || (8192 <=? c) && (c <=? 8202)
   || (c =? 8232) || (c =? 8233) || (c =? 8239) || (c =? 8287)
   || (c =? 12288))%N.

(** The newline of [strip("\n")]. *)
Definition isnewline (c : N) : bool := (c =? 10)%N.

Fixpoint dropwhile (p : N -> bool) (s : pystr) : pystr :=
  match s with
  | [] => []
  | c :: r => if p c then dropwhile p r else s
  end.

Definition lstrip_by (p : N -> bool) (s : pystr) : pystr := dropwhile p s.

Definition rstrip_by (p : N -> bool) (s : pystr) : pystr :=
  rev (dropwhile p (rev s)).

(** [s.strip(chars)]: the characters of the set are removed at both ends. *)
Definition strip_by (p : N -> bool) (s : pystr) : pystr :=
  rstrip_by p (lstrip_by p s).

(** [s.strip()] *)
Definition strip (s : pystr) : pystr := strip_by isspace s.

(** [s.strip("\n")] *)
Definition strip_newlines (s : pystr) : pystr := strip_by isnewline s.

(** Truth value of a [str]: the empty string is false. *)
Definition nonempty (s : pystr) : bool :=
  match s with [] => false | _ :: _ => true end.

(** Truth value of a list. *)
Definition nonempty_list {A} (l : list A) : bool :=
  match l with [] => false | _ :: _ => true end.

(** ** The parse tree *)

(** The subclasses of [NavigableString] that the parser gives to the strings
    that are not text proper: comments, declarations, and the strings inside
    the tags that have a string container of their own. *)
Inductive string_class : Type :=
| CData
| Comment
| Declaration
| Doctype
| ProcessingInstruction
| Script
| Stylesheet
| TemplateString
| RubyTextString
| RubyParenthesisString.

(** A node of the tree that [BeautifulSoup(..., "html.parser")] builds: a
    [NavigableString] proper ([Text]), a [Tag], or a string of a subclass of
    [NavigableString] ([Other]).  A tag has its name, its [class] attribute
    (which the parser keeps as the list of its tokens), its other attributes
    (a dict from names to strings) and its [contents]. *)
Inductive node : Type :=
| Text (s : pystr)
| Element (name : string) (classes : list string)
          (attrs : list (string * pystr)) (contents : list node)
| Other (c : string_class) (s : pystr).

(** The [BeautifulSoup] object itself: a tag named [[document]] above the
    top-level nodes. *)
Definition BeautifulSoup (top : list node) : node :=
  Element "[document]" [] [] top.

(** [getattr(n, "name", None)] *)
Definition name_of (n : node) : option string :=
  match n with
  | Text _ | Other _ _ => None
  | Element nm _ _ _ => Some nm
  end.

Definition has_name (nm : string) (n : node) : bool :=
  match name_of n with
  | Some x => String.eqb x nm
  | None => false
  end.

(** [class_=c]: a tag one of whose class tokens is [c]. *)
Definition has_class (c : string) (n : node) : bool :=
  match n with
  | Text _ | Other _ _ => false
  | Element _ cls _ _ => existsb (String.eqb c) cls
  end.

(** [tag.get(key, default)] *)
Fixpoint dict_get (key : string) (d : list (string * pystr))
  (default : pystr) : pystr :=
  match d with
  | [] => default
  | (k, v) :: r => if String.eqb k key then v else dict_get key r default
  end.

Definition get (n : node) (key : string) (default : pystr) : pystr :=
  match n with
  | Text _ | Other _ _ => default
  | Element _ _ a _ => dict_get key a default
  end.

(** Truth value of a node, as [while sibling:] and [if text_el:] test it: a
    tag is always true, a string is true when it is not empty. *)
Definition truthy (n : node) : bool :=
  match n with
  | Text s | Other _ s => nonempty s
  | Element _ _ _ _ => true
  end.

(** A reference to a node of the tree, with what the code reaches from it:
    the chain of its ancestors (nearest first) and the siblings after it
    (the [next_sibling] chain). *)
Record tagref : Type := mkref {
  ref_node : node;
  ref_ancestors : list node;
  ref_next : list node
}.

(** The nodes of a list of siblings [l] with their positions, each followed
    by what is below it. *)
Fixpoint located_in (below : node -> list tagref) (anc : list node)
  (l : list node) : list tagref :=
  match l with
  | [] => []
  | c :: r => mkref c anc r :: below c ++ located_in below anc r
  end.

(** [n.descendants] with their positions: every node below [n], in document
    order (a node before its own contents, then its next sibling). *)
Fixpoint located (anc : list node) (n : node) : list tagref :=
  match n with
  | Text _ | Other _ _ => []
  | Element _ _ _ cs => located_in (located (n :: anc)) (n :: anc) cs
  end.

(** [n.descendants] *)
Definition descendants (n : node) : list node :=
  map ref_node (located [] n).

(** The class of the strings that the parser puts inside a tag of a given
    name, for the five names that have a string container
    ([string_containers] of the HTML tree builder). *)
Definition string_container (name : string) : option string_class :=
  if String.eqb name "rt" then Some RubyTextString
  else if String.eqb name "rp" then Some RubyParenthesisString
  else if String.eqb name "style" then Some Stylesheet
  else if String.eqb name "script" then Some Script
  else if String.eqb name "template" then Some TemplateString
  else None.

Definition is_class (k c : string_class) : bool :=
  match k, c with
  | CData, CData | Comment, Comment | Declaration, Declaration
  | Doctype, Doctype | ProcessingInstruction, ProcessingInstruction
  | Script, Script | Stylesheet, Stylesheet
  | TemplateString, TemplateString | RubyTextString, RubyTextString
  | RubyParenthesisString, RubyParenthesisString => true
  | _, _ => false
  end.

(** The string of a descendant [d] that [.text] of a tag named [name] joins,
    empty for what it leaves out: [interesting_string_types] of the tag is
    the string container of its name, or else [NavigableString] proper and
    [CData]; a string of another class (a comment, a script or a style sheet
    inside another tag) is left out. *)
Definition interesting (name : string) (d : node) : pystr :=
  match d with
  | Element _ _ _ _ => []
  | Text s =>
      match string_container name with
      | Some _ => []
      | None => s
      end
  | Other c s =>
      match string_container name with
      | Some k => if is_class k c then s else []
      | None => if is_class CData c then s else []
      end
  end.

(** [n.text]: the interesting strings below [n], joined. *)
Definition text (n : node) : pystr :=
  match n with
  | Text s => s
  | Other c s => if is_class CData c then s else []
  | Element name _ _ _ => flat_map (interesting name) (descendants n)
  end.

(** [n.find_all(...)]: the descendants that match, in document order. *)
Definition find_all (p : node -> bool) (n : node) : list tagref :=
  filter (fun r => p (ref_node r)) (located [] n).

(** [n.find(...)]: the first descendant that matches, or [None]. *)
Definition find (p : node -> bool) (n : node) : option tagref :=
  match find_all p n with
  | [] => None
  | r :: _ => Some r
  end.

(** [soup.select("div.mw-parser-output > ol > li")]: every [li] whose parent
    is an [ol] whose parent is a [div] of class [mw-parser-output]. *)
Definition is_mw_parser_output (n : node) : bool :=
  has_name "div" n && has_class "mw-parser-output" n.

Definition answer_item (r : tagref) : bool :=
  has_name "li" (ref_node r) &&
  match ref_ancestors r with
  | parent :: grand :: _ => has_name "ol" parent && is_mw_parser_output grand
  | _ => false
  end.

Definition select_answer_items (soup : node) : list tagref :=
  filter answer_item (located [] soup).

(** ** Results and messages *)

(** What a call gives back: a value, or an exception that it raises. *)
Inductive exn : Type := IndexError.

Inductive result (A : Type) : Type :=
| Ok (a : A)
| Raise (e : exn).
Arguments Ok {A} a.
Arguments Raise {A} e.

(** The lines that [print_info], [print_success] and [print_error] of
    [cli_utils.py] write. *)
Inductive message : Type :=
| Info (s : string)
| Success (s : string)
| Error (s : string).

(** What lines 113 to 118 of [scrape_answers] end with: the parsed page, or a
    [requests.exceptions.RequestException] (time-out, connection failure, or
    the [HTTPError] of [raise_for_status]) with its text. *)
Inductive response : Type :=
| Fetched (soup : node)
| RequestException (e : string).

(** ** [scrape_answers] *)

(** [[li.text.strip() for li in elements if li.text.strip()]] *)
Fixpoint stripped_texts (elements : list tagref) : list pystr :=
  match elements with
  | [] => []
  | li :: rest =>
      if nonempty (strip (text (ref_node li)))
      then strip (text (ref_node li)) :: stripped_texts rest
      else stripped_texts rest
  end.

(** The messages written, and the value returned ([None] or a list). *)
Definition scrape_answers (url : string) (resp : response)
  : list message * option (list pystr) :=
  let log := [Info ("Fetching data from: " ++ url)%string] in
  match resp with
  | Fetched soup =>
      let log := log ++ [Success "Successfully fetched webpage!"] in
      let elements := select_answer_items soup in
      if nonempty_list elements then
        (log ++ [Success "Found answer elements on the page."],
         Some (stripped_texts elements))
      else
        (log ++ [Error "No answers found with the expected format. The page structure might have changed."],
         None)
  | RequestException e =>
      (log ++ [Error ("Error fetching the webpage: " ++ e)%string], None)
  end.

(** ** [fetch_solution_sections] *)

(** One turn of the loop over [toc_sections]. *)
Definition add_section (result : list pystr) (content : tagref)
  : list pystr :=
  match find (has_class "toctext") (ref_node content) with
  | Some text_el =>
      if truthy (ref_node text_el)
      then result ++ [strip (text (ref_node text_el))]
      else result
  | None => result
  end.

Definition fetch_solution_sections (soup : node) : list pystr :=
  let toc_sections := find_all (has_class "toclevel-1") soup in
  fold_left add_section toc_sections [].

(** ** [extract_solution_content] *)

Definition newline : pystr := [10%N].

Section Content.

(** [converter.latex_to_text] of pylatexenc. *)
Variable latex_to_text : pystr -> pystr.

(** The body of the loop over [sibling.descendants]; [isinstance(elem, str)]
    holds of the strings of the tree, whatever their class, and of nothing
    else. *)
Definition visit (solution_content : list pystr) (elem : node)
  : list pystr :=
  if has_name "img" elem then
    let latex := get elem "alt" [] in
    solution_content ++ [strip_newlines (latex_to_text latex)]
  else
    match elem with
    | Text s | Other _ s =>
        let text := strip s in
        if nonempty text then solution_content ++ [strip text]
        else solution_content
    | Element _ _ _ _ => solution_content
    end.

(** [getattr(sibling, "name", None) in ["p", "ul", "ol", "div"]] *)
Definition is_block (sibling : node) : bool :=
  match name_of sibling with
  | Some nm => existsb (String.eqb nm) ["p"; "ul"; "ol"; "div"]
  | None => false
  end.

(** The [while sibling:] loop, over the [next_sibling] chain. *)
Fixpoint walk_siblings (siblings : list node)
  (solution_content : list pystr) : list pystr :=
  match siblings with
  | [] => solution_content
  | sibling :: rest =>
      if negb (truthy sibling) then solution_content
      else if has_name "h2" sibling then solution_content
      else
        let solution_content :=
          if is_block sibling
          then fold_left visit (descendants sibling) solution_content
          else solution_content in
        walk_siblings rest (solution_content ++ [newline])
  end.

(** [h2_tags = mw_content.find_all("h2"); h2_tags.pop(0)]: the list after the
    pop, which raises on an empty list. *)
Definition section_anchors (mw_content : node) : result (list tagref) :=
  match find_all (has_name "h2") mw_content with
  | [] => Raise IndexError
  | _ :: h2_tags => Ok h2_tags
  end.

Definition extract_solution_content (soup : node) (section_index : Z)
  : result (list pystr) :=
  match find is_mw_parser_output soup with
  | None => Ok []
  | Some mw_content =>
      if negb (truthy (ref_node mw_content)) then Ok []
      else
        match section_anchors (ref_node mw_content) with
        | Raise e => Raise e
        | Ok h2_tags =>
            if negb ((0 <=? section_index)%Z &&
                     (section_index <? Z.of_nat (List.length h2_tags))%Z)
            then Ok []
            else
              match nth_error h2_tags (Z.to_nat section_index) with
              | None => Raise IndexError
              | Some selected_h2 =>
                  Ok (walk_siblings (ref_next selected_h2) [])
              end
        end
  end.

End Content.

(** ** Predicates of the statements *)

(** A string that has nothing left to strip at its front, or at its end. *)
Definition clean_front (p : N -> bool) (s : pystr) : Prop :=
  match s with [] => True | c :: _ => p c = false end.

Definition clean_back (p : N -> bool) (s : pystr) : Prop :=
  clean_front p (rev s).

(** The contents of a tag. *)
Definition contents_of (n : node) : list node :=
  match n with
  | Text _ | Other _ _ => []
  | Element _ _ _ cs => cs
  end.

(** [n] is in the contents of the first node of [anc], which is in the
    contents of the second, and so on. *)
Fixpoint chained (n : node) (anc : list node) : Prop :=
  match anc with
  | [] => True
  | parent :: rest => In n (contents_of parent) /\ chained parent rest
  end.

(** A reference says where its node is: the node is in the contents of its
    parent, followed there by the siblings of [ref_next], and the ancestors
    are above one another. *)
Definition well_placed (r : tagref) : Prop :=
  match ref_ancestors r with
  | [] => False
  | parent :: rest =>
      (exists before,
         contents_of parent = before ++ ref_node r :: ref_next r) /\
      chained parent rest
  end.

(** A list item of the answer list: a [li] in the contents of an [ol] that is
    in the contents of a [div] of class [mw-parser-output]. *)
Definition in_answer_list (r : tagref) : Prop :=
  has_name "li" (ref_node r) = true /\
  exists ol container above,
    ref_ancestors r = ol :: container :: above /\
    has_name "ol" ol = true /\
    is_mw_parser_output container = true /\
    In (ref_node r) (contents_of ol) /\
    In ol (contents_of container).

(** The trimmed text of a node, and whether it is kept. *)
Definition trimmed (r : tagref) : pystr := strip (text (ref_node r)).

Definition kept (r : tagref) : bool := nonempty (trimmed r).

(** The nodes below [n] in document order, by recursion on the tree: each
    node of the contents, followed by what is below it. *)
Fixpoint below (n : node) : list node :=
  match n with
  | Element _ _ _ cs => flat_map (fun c => c :: below c) cs
  | Text _ | Other _ _ => []
  end.

(** The text of one node for a reader of the page: a string of text proper
    or of a CDATA section; nothing for a tag, a comment, a declaration, or a
    string of a script, a style sheet, a template or a ruby annotation. *)
Definition plain_string (d : node) : pystr :=
  match d with
  | Text s => s
  | Other CData s => s
  | Other _ _ => []
  | Element _ _ _ _ => []
  end.

(** The string of a node of class [k]. *)
Definition string_of_class (k : string_class) (d : node) : pystr :=
  match d with
  | Other c s => if is_class k c then s else []
  | Text _ | Element _ _ _ _ => []
  end.

(** The display text of a tag: its plain strings in document order, joined;
    for a tag that holds strings of a class of its own (a script, a style
    sheet, a template, a ruby annotation), those strings. *)
Definition display_text (d : node) : pystr :=
  match d with
  | Element name _ _ _ =>
      match string_container name with
      | None => flat_map plain_string (below d)
      | Some k => flat_map (string_of_class k) (below d)
      end
  | Text _ | Other _ _ => []
  end.

(** The section titles as the specification words them: the nodes marked as
    top-level entries of the table of contents, in document order; for each,
    the trimmed text of the display-text node nested in it (the first one in
    document order); an entry without such a node is skipped. *)
Definition list_sections_spec (soup : node) : list pystr :=
  flat_map
    (fun entry =>
       match filter (has_class "toctext") (below entry) with
       | display :: _ => [strip (display_text display)]
       | [] => []
       end)
    (filter (has_class "toclevel-1") (below soup)).

Definition has_display_text (entry : tagref) : bool :=
  match find (has_class "toctext") (ref_node entry) with
  | Some _ => true
  | None => false
  end.

(** Whether a tag carries the attribute [key]. *)
Definition has_attr (key : string) (n : node) : bool :=
  match n with
  | Text _ | Other _ _ => false
  | Element _ _ a _ => existsb (fun kv => String.eqb (fst kv) key) a
  end.

Section Fragments.

Variable latex_to_text : pystr -> pystr.

(** The fragments that one descendant contributes. *)
Definition fragments_of (elem : node) : list pystr :=
  visit latex_to_text [] elem.

(** The fragments that one sibling contributes, before its separator. *)
Definition sibling_fragments (sibling : node) : list pystr :=
  if is_block sibling
  then flat_map fragments_of (descendants sibling)
  else [].

End Fragments.

(** ** The calls with the objects they allocate and change *)

(** The page, and the Python lists that [find_all] has built so far; a list
    is known by its position in the store.  [h2_tags.pop(0)] changes such a
    list in place. *)
Record world : Type := mkworld {
  w_page : node;
  w_lists : list (list tagref)
}.

Definition M (A : Type) : Type := world -> result A * world.

Definition ret {A} (a : A) : M A := fun w => (Ok a, w).

Definition bind {A B} (m : M A) (k : A -> M B) : M B :=
  fun w =>
    match m w with
    | (Ok a, w') => k a w'
    | (Raise e, w') => (Raise e, w')
    end.

Notation "x <- m ;; k" := (bind m (fun x => k))
  (at level 61, m at next level, right associativity).

(** The [soup] that the caller passes. *)
Definition the_page : M node := fun w => (Ok (w_page w), w).

(** [tag.find_all(...)]: a new list object. *)
Definition find_all_st (p : node -> bool) (n : node) : M nat :=
  fun w =>
    (Ok (List.length (w_lists w)),
     mkworld (w_page w) (w_lists w ++ [find_all p n])).

Fixpoint update {A} (i : nat) (x : A) (l : list A) : list A :=
  match l, i with
  | [], _ => []
  | _ :: r, O => x :: r
  | y :: r, S j => y :: update j x r
  end.

(** [l.pop(0)] *)
Definition pop0 (a : nat) : M tagref :=
  fun w =>
    match nth a (w_lists w) [] with
    | [] => (Raise IndexError, w)
    | x :: rest => (Ok x, mkworld (w_page w) (update a rest (w_lists w)))
    end.

(** [len(l)] *)
Definition len (a : nat) : M nat :=
  fun w => (Ok (List.length (nth a (w_lists w) [])), w).

(** [l[i]] for [i] not negative. *)
Definition getitem (a : nat) (i : nat) : M tagref :=
  fun w =>
    match nth_error (nth a (w_lists w) []) i with
    | Some x => (Ok x, w)
    | None => (Raise IndexError, w)
    end.

Definition scrape_answers_st (url : string) : M (option (list pystr)) :=
  soup <- the_page ;;
  ret (snd (scrape_answers url (Fetched soup))).

Definition fetch_solution_sections_st : M (list pystr) :=
  soup <- the_page ;;
  ret (fetch_solution_sections soup).

Definition extract_solution_content_st
  (latex_to_text : pystr -> pystr) (section_index : Z) : M (list pystr) :=
  soup <- the_page ;;
  match find is_mw_parser_output soup with
  | None => ret []
  | Some mw_content =>
      if negb (truthy (ref_node mw_content)) then ret []
      else
        h2_tags <- find_all_st (has_name "h2") (ref_node mw_content) ;;
        _ <- pop0 h2_tags ;;
        n <- len h2_tags ;;
        if negb ((0 <=? section_index)%Z && (section_index <? Z.of_nat n)%Z)
        then ret []
        else
          selected_h2 <- getitem h2_tags (Z.to_nat section_index) ;;
          ret (walk_siblings latex_to_text (ref_next selected_h2) [])
  end.

(** Two calls in succession from [w]: the second gives what the first gave,
    and the page is after each call what it was before. *)
Definition same_twice {A} (call : M A) (w : world) : Prop :=
  let first := call w in
  let second := call (snd first) in
  fst second = fst first /\
  w_page (snd first) = w_page w /\
  w_page (snd second) = w_page w.

(** ** Pages *)

Definition mw_parser_output (contents : list node) : node :=
  Element "div" ["mw-parser-output"] [] contents.

Definition h2 (title : string) : node :=
  Element "h2" [] [] [Text (py title)].

Definition paragraph (s : string) : node :=
  Element "p" [] [] [Text (py s)].

Definition li (s : string) : node :=
  Element "li" [] [] [Text (py s)].

Definition toc_entry (title : string) : node :=
  Element "li" ["toclevel-1"] []
    [Element "a" [] []
       [Element "span" ["tocnumber"] [] [Text (py "1")];
        Text (py " ");
        Element "span" ["toctext"] [] [Text (py title)]]].

(** A main content container without any heading. *)
Definition page_without_heading : node :=
  BeautifulSoup [mw_parser_output []].

(** An answer key whose items hold a comment, a script and a style sheet
    beside their text; the second item has no text. *)
Definition page_answers_markup : node :=
  BeautifulSoup
    [mw_parser_output
       [Element "ol" [] []
          [Element "li" [] [] [Text (py "A"); Other Comment (py " c")];
           Element "li" [] []
             [Element "script" [] [] [Other Script (py "x")]];
           Element "li" [] []
             [Text (py " B ");
              Element "style" [] [] [Other Stylesheet (py "p{}")]]]]].

(** An answer key whose only item is blank. *)
Definition page_blank_item : node :=
  BeautifulSoup [mw_parser_output [Element "ol" [] [] [li "  "]]].

(** A page without the answer list. *)
Definition page_no_list : node :=
  BeautifulSoup [mw_parser_output [paragraph "nothing here"]].

(** A problem page: the contents heading, then two sections, no table of
    contents. *)
Definition page_two_sections : node :=
  BeautifulSoup
    [mw_parser_output
       [h2 "Contents"; h2 "Solution 1"; paragraph "The answer is 5.";
        h2 "Solution 2"; paragraph "By symmetry."]].

(** A paragraph whose text is "The answer is 5.", with one word in bold. *)
Definition paragraph_inline : node :=
  Element "p" [] []
    [Text (py "The answer is "); Element "b" [] [] [Text (py "5")];
     Text (py ".")].

(** A problem page whose first section is that paragraph. *)
Definition page_inline_markup : node :=
  BeautifulSoup
    [mw_parser_output
       [h2 "Contents"; h2 "Solution 1"; paragraph_inline; h2 "Solution 2"]].

(** A table of contents whose first entry has a comment in its display text
    and an entry of the second level nested in it, and whose second entry
    has no display text. *)
Definition page_toc_markup : node :=
  BeautifulSoup
    [Element "ul" [] []
       [Element "li" ["toclevel-1"] []
          [Element "a" [] []
             [Element "span" ["tocnumber"] [] [Text (py "1")];
              Text (py " ");
              Element "span" ["toctext"] []
                [Text (py " Solution 1"); Other Comment (py " hidden ")]];
           Element "ul" [] []
             [Element "li" ["toclevel-2"] []
                [Element "span" ["toctext"] [] [Text (py "Remark")]]]];
        Element "li" ["toclevel-1"] [] [Text (py "2")];
        toc_entry "Solution 2"]].

(** A table of contents on a page without headings. *)
Definition page_toc_only : node :=
  BeautifulSoup
    [Element "ul" [] []
       [toc_entry " Solution 1 "; Element "li" ["toclevel-1"] [] [];
        toc_entry "Solution 2"]].

(** A math image whose markup starts and ends with a newline. *)
Definition img_display : node :=
  Element "img" ["latex"] [("alt", 10%N :: py "x" ++ [10%N])] [].

(** An image without [alt]. *)
Definition img_bare : node := Element "img" [] [("src", py "a.png")] [].

(** A converter that gives back markup that has no command in it. *)
Definition plain_converter (markup : pystr) : pystr := markup.


(** ** Strings of the command line *)

(** [a == b] on Python strings. *)
Fixpoint pystr_eqb (a b : pystr) : bool :=
  match a, b with
  | [], [] => true
  | x :: a', y :: b' => N.eqb x y && pystr_eqb a' b'
  | _, _ => false
  end.

(** [x in l] for a list of strings. *)
Definition pystr_in (x : pystr) (l : list pystr) : bool :=
  existsb (pystr_eqb x) l.

(** [str(z)] for an [int]: its decimal text, with a minus sign below zero. *)
Definition str_of_int (z : Z) : pystr :=
  py (DecimalString.NilZero.string_of_int (Z.to_int z)).

(** [s.startswith(old)] *)
Fixpoint startswith (s old : pystr) : bool :=
  match old, s with
  | [], _ => true
  | o :: old', c :: s' => N.eqb c o && startswith s' old'
  | _ :: _, [] => false
  end.

(** The scan of [s.replace(old, new)] for [old] not empty: at an occurrence
    of [old] write [new] and skip the occurrence, elsewhere copy one
    character.  [skip] counts the characters of an occurrence still to be
    passed over. *)
Fixpoint replace_from (old new : pystr) (skip : nat) (s : pystr) : pystr :=
  match s with
  | [] => []
  | c :: r =>
      match skip with
      | S k => replace_from old new k r
      | O =>
          if startswith s old
          then new ++ replace_from old new (List.length old - 1) r
          else c :: replace_from old new O r
      end
  end.

(** [s.replace(old, new)]; with [old] empty, [new] goes before each
    character and at the end. *)
Definition replace (s old new : pystr) : pystr :=
  match old with
  | [] => new ++ flat_map (fun c => c :: new) s
  | _ :: _ => replace_from old new O s
  end.

(** [sep.join(l)] *)
Fixpoint join (sep : pystr) (l : list pystr) : pystr :=
  match l with
  | [] => []
  | [x] => x
  | x :: r => x ++ sep ++ join sep r
  end.

(** ** [TEST_AVAILABILITY] and [construct_url] *)

Record test_config : Type := mkconfig {
  start_year : Z;
  end_year : option Z;
  description : pystr;
  url_format : pystr
}.

(** The dict of lines 25 to 63, in the order of its keys. *)
Definition TEST_AVAILABILITY : list (pystr * test_config) :=
  [ (py "AJHSME",
     mkconfig 1985 (Some 1998%Z)
       (py "American Junior High School Mathematics Examination")
       (py "AJHSME"));
    (py "AHSME",
     mkconfig 1950 (Some 1998%Z)
       (py "American High School Mathematics Examination") (py "AHSME"));
    (py "8", mkconfig 1999 None (py "AMC 8") (py "AMC_8"));
    (py "10A", mkconfig 2002 None (py "AMC 10A") (py "AMC_10A"));
    (py "10B", mkconfig 2002 None (py "AMC 10B") (py "AMC_10B"));
    (py "10", mkconfig 2000 (Some 2001%Z) (py "AMC 10") (py "AMC_10"));
    (py "12A", mkconfig 2002 None (py "AMC 12A") (py "AMC_12A"));
    (py "12B", mkconfig 2002 None (py "AMC 12B") (py "AMC_12B"));
    (py "12", mkconfig 2000 (Some 2001%Z) (py "AMC 12") (py "AMC_12"));
    (py "AIME",
     mkconfig 1983 (Some 1999%Z)
       (py "American Invitational Mathematics Examination") (py "AIME"));
    (py "AIME_I",
     mkconfig 2000 None
       (py "American Invitational Mathematics Examination I")
       (py "AIME_I"));
    (py "AIME_II",
     mkconfig 2000 None
       (py "American Invitational Mathematics Examination II")
       (py "AIME_II")) ].

(** The test of line 76. *)
Definition available (year_int : Z) (config : test_config) : bool :=
  (start_year config <=? year_int)%Z &&
  match end_year config with
  | None => true
  | Some last => (year_int <=? last)%Z
  end.

(** The entries that the loop of lines 75 to 78 keeps, and their keys, which
    it collects in [valid_tests]. *)
Definition valid_entries (year_int : Z) : list (pystr * test_config) :=
  filter (fun entry => available year_int (snd entry)) TEST_AVAILABILITY.

Definition valid_tests (year_int : Z) : list pystr :=
  map fst (valid_entries year_int).

Definition base_url : pystr :=
  py "https://artofproblemsolving.com/wiki/index.php".

Definition construct_url (year test_type : pystr) : pystr :=
  if pystr_in test_type
       [py "AIME"; py "AIME_I"; py "AIME_II"; py "AJHSME"; py "AHSME"]
  then base_url ++ py "/" ++ year ++ py "_" ++ test_type ++ py "_Answer_Key"
  else base_url ++ py "/" ++ year ++ py "_AMC_" ++ test_type
       ++ py "_Answer_Key".

(** Line 186 of [find_solutions]: the page of one problem. *)
Definition problem_url (url : pystr) (question : Z) : pystr :=
  replace url (py "_Answer_Key") (py "_Problems")
  ++ py "/Problem_" ++ str_of_int question.

(** ** [cli_utils.py] *)

(** The constants of colorama that the code writes: the escape sequences of
    the colours and of the bright style. *)
Definition csi (code : string) : pystr := [27%N] ++ py "[" ++ py code ++ py "m".
Definition Fore_RED : pystr := csi "31".
Definition Fore_GREEN : pystr := csi "32".
Definition Fore_BLUE : pystr := csi "34".
Definition Fore_MAGENTA : pystr := csi "35".
Definition Fore_CYAN : pystr := csi "36".
Definition Style_BRIGHT : pystr := csi "1".

(** [print(text, end=...)]: what is written on the standard output. *)
Definition print_end (text end_ : pystr) : pystr := text ++ end_.
Definition print (text : pystr) : pystr := print_end text newline.

(** The cross, the check mark and the information sign of the messages. *)
Definition print_error (text : pystr) : pystr :=
  print (Fore_RED ++ Style_BRIGHT ++ [10060%N] ++ py " " ++ text).

Definition print_success (text : pystr) : pystr :=
  print (Fore_GREEN ++ Style_BRIGHT ++ [9989%N] ++ py " " ++ text).

Definition print_info (text : pystr) : pystr :=
  print (Fore_BLUE ++ [8505%N; 65039%N] ++ py "  " ++ text).

Definition print_header (text : pystr) : pystr :=
  print (Fore_MAGENTA ++ Style_BRIGHT ++ text).

(** The part of [prompt] before [input()]. *)
Definition prompt_text_written (text : pystr) : pystr :=
  print_end (Fore_CYAN ++ Style_BRIGHT ++ text) [].

(** The exceptions that go through the command line; [Escaped] is an
    exception of the extractor itself, [ConverterError] what the converter of
    pylatexenc raises on a markup that it does not take. *)
Inductive pyexn : Type :=
| ValueError
| TypeError
| KeyboardInterrupt
| EOFError
| SystemExit (code : Z)
| Escaped (e : exn)
| ConverterError (markup : pystr).

(** What one call of [input()] gives: a line, or an exception that it
    raises. *)
Inductive keyboard : Type :=
| Line (s : pystr)
| Fails (e : pyexn).

(** How a call that reads the keyboard ends: it returns, with the keyboard
    events left; it raises; or it is still waiting in [input()] when the
    events run out. *)
Inductive outcome (A : Type) : Type :=
| Returned (a : A) (rest : list keyboard)
| Raised (e : pyexn) (rest : list keyboard)
| Waiting.
Arguments Returned {A} a rest.
Arguments Raised {A} e rest.
Arguments Waiting {A}.

(** What a call writes, and how it ends. *)
Definition run (A : Type) : Type := list pystr * outcome A.

(** [written] and then what [r] writes. *)
Definition after {A} (written : list pystr) (r : run A) : run A :=
  (written ++ fst r, snd r).

(** Truth value of an optional message ([None] and the empty string are
    false). *)
Definition given (msg : option pystr) : bool :=
  match msg with
  | Some m => nonempty m
  | None => false
  end.

Definition or_default (msg : option pystr) (default : pystr) : pystr :=
  match msg with
  | Some m => if nonempty m then m else default
  | None => default
  end.

Section CommandLine.

(** [int(s)] of Python for a string: [None] where it raises [ValueError]. *)
Variable int : pystr -> option Z.

(** [s.upper()] of Python. *)
Variable upper : pystr -> pystr.

(** [get_valid_int] of [cli_utils.py], on the keyboard events to come. *)
Fixpoint get_valid_int (prompt_text : pystr) (min_val max_val : Z)
  (min_msg max_msg : option pystr) (allow_zero : bool)
  (keys : list keyboard) : run Z :=
  let invalid :=
    print_error (py "Invalid input. Please enter a valid number.") in
  match keys with
  | [] => ([prompt_text_written prompt_text], Waiting)
  | Fails ValueError :: rest =>
      after [prompt_text_written prompt_text; invalid]
        (get_valid_int prompt_text min_val max_val min_msg max_msg
           allow_zero rest)
  | Fails e :: rest => ([prompt_text_written prompt_text], Raised e rest)
  | Line l :: rest =>
      let user_input := strip l in
      if allow_zero && pystr_eqb user_input (py "0") then
        ([prompt_text_written prompt_text], Returned 0%Z rest)
      else
        match int user_input with
        | None =>
            after [prompt_text_written prompt_text; invalid]
              (get_valid_int prompt_text min_val max_val min_msg max_msg
                 allow_zero rest)
        | Some value =>
            if (value <? min_val)%Z then
              after
                [prompt_text_written prompt_text;
                 print_error
                   (or_default min_msg
                      (py "Please enter a number greater than or equal to "
                       ++ str_of_int min_val ++ py "."))]
                (get_valid_int prompt_text min_val max_val min_msg max_msg
                   allow_zero rest)
            else if (value >? max_val)%Z then
              after
                [prompt_text_written prompt_text;
                 print_error
                   (or_default max_msg
                      (py "Please enter a number less than or equal to "
                       ++ str_of_int max_val ++ py "."))]
                (get_valid_int prompt_text min_val max_val min_msg max_msg
                   allow_zero rest)
            else ([prompt_text_written prompt_text], Returned value rest)
        end
  end.

(** The [while True] loop of [get_valid_test_type]. *)
Fixpoint ask_test_type (year : pystr) (valid : list pystr)
  (keys : list keyboard) : run pystr :=
  let asked :=
    prompt_text_written ([128292%N] ++ py " Enter the test type: ") in
  match keys with
  | [] => ([asked], Waiting)
  | Fails e :: rest => ([asked], Raised e rest)
  | Line l :: rest =>
      let test_type := upper (strip l) in
      if negb (nonempty test_type) then
        after
          [asked;
           print_error (py "Test type cannot be empty. Please try again.")]
          (ask_test_type year valid rest)
      else if pystr_in test_type valid then
        ([asked;
          print_success
            (py "Test type '" ++ test_type ++ py "' is valid for the year "
             ++ year ++ py ".")],
         Returned test_type rest)
      else
        after
          [asked;
           print_error
             (py "Invalid test type. Please choose from the available options.")]
          (ask_test_type year valid rest)
  end.

(** [except KeyboardInterrupt: sys.exit(0)] *)
Definition exit_on_interrupt {A} (r : run A) : run A :=
  match snd r with
  | Raised KeyboardInterrupt rest => (fst r, Raised (SystemExit 0) rest)
  | _ => r
  end.

(** [get_valid_test_type] of [main.py]. *)
Definition get_valid_test_type (year : pystr) (keys : list keyboard)
  : run pystr :=
  match int year with
  | None => ([], Raised ValueError keys)
  | Some year_int =>
      exit_on_interrupt
        (after
           ([print_header
               ([10%N; 128203%N] ++ py " Available test types for " ++ year
                ++ py ":")]
            ++ map
                 (fun entry =>
                    print
                      (Fore_GREEN ++ py "  " ++ [8226%N] ++ py " "
                       ++ fst entry ++ py " ("
                       ++ description (snd entry) ++ py ")"))
                 (valid_entries year_int)
            ++ [print []])
           (ask_test_type year (valid_tests year_int) keys))
  end.

End CommandLine.

(** ** [find_solutions] *)

(** What a call of [find_solutions] writes, the addresses that it requests,
    in order, and how it ends. *)
Definition session : Type := list pystr * list pystr * outcome unit.

(** A part of a call, and then the rest of it. *)
Definition later (written requested : list pystr) (s : option session)
  : option session :=
  match s with
  | Some (w, q, o) => Some (written ++ w, requested ++ q, o)
  | None => None
  end.

(** The lines of [for i, section in enumerate(sections, start=1)]. *)
Fixpoint numbered (i : Z) (sections : list pystr) : list pystr :=
  match sections with
  | [] => []
  | section :: rest =>
      print (Fore_CYAN ++ str_of_int i ++ py ". " ++ section)
      :: numbered (i + 1) rest
  end.

Section Solutions.

Variable int : pystr -> option Z.
Variable latex_to_text : pystr -> pystr.

(** The outcome of lines 187 to 190 for the request number [n] of the call
    (from 0) and its address: the page parsed, or the exception of the
    request. *)
Variable network : nat -> pystr -> response.

(** One turn of the [while True] loop of [find_solutions]: it ends the call
    ([break], an exception that is not caught, or no more input), or goes
    back to the top of the loop, after one request. *)
Inductive turn : Type :=
| Stop (s : session)
| Again (written : list pystr) (address : pystr) (rest : list keyboard).

Definition solution_turn (url : pystr) (max_question : Z) (n : nat)
  (keys : list keyboard) : turn :=
  let q :=
    get_valid_int int
      ([128269%N] ++ py " Enter the question number (or 0 to exit): ")
      1 max_question None None true keys in
  match snd q with
  | Waiting => Stop (fst q, [], Waiting)
  | Raised e rest => Stop (fst q, [], Raised e rest)
  | Returned question rest =>
      if (question =? 0)%Z then
        Stop (fst q ++ [print_info (py "Exiting solution finder.")],
              [], Returned tt rest)
      else
        let w1 :=
          fst q ++
          [print_info
             (py "Fetching solution page for question "
              ++ str_of_int question ++ py "...")] in
        let address := problem_url url question in
        match network n address with
        | RequestException e =>
            Again
              (w1 ++
               [print_error
                  (py "Network error while fetching the page: " ++ py e)])
              address rest
        | Fetched soup =>
            let sections := fetch_solution_sections soup in
            if negb (nonempty_list sections) then
              Again
                (w1 ++
                 [print_error
                    (py "No solution sections found for this question.")])
                address rest
            else
              let c :=
                get_valid_int int
                  ([128214%N]
                   ++ py " Enter section number to view (or 0 to go back): ")
                  1 (Z.of_nat (List.length sections)) None None true rest in
              let w2 :=
                w1 ++ [print_info (py "Available solution sections:")]
                ++ numbered 1 sections ++ fst c in
              match snd c with
              | Waiting => Stop (w2, [address], Waiting)
              | Raised e rest' => Stop (w2, [address], Raised e rest')
              | Returned section_choice rest' =>
                  if (section_choice =? 0)%Z then Again w2 address rest'
                  else
                    let w3 :=
                      w2 ++
                      [print_info
                         (py "Fetching and displaying solution...")] in
                    match
                      extract_solution_content latex_to_text soup
                        (section_choice - 1)
                    with
                    | Raise e =>
                        Stop (w3, [address], Raised (Escaped e) rest')
                    | Ok content =>
                        Again
                          (w3 ++
                           if nonempty_list content then
                             [print_success ([128221%N] ++ py " Solution:");
                              print (join (py " ") content)]
                           else
                             [print_error
                                (py "No readable solution content found in the selected section.")])
                          address rest'
                    end
              end
        end
  end.

(** The loop; every turn reads the keyboard, and [fuel] bounds the number of
    turns. *)
Fixpoint solution_loop (fuel : nat) (url : pystr) (max_question : Z)
  (n : nat) (keys : list keyboard) : option session :=
  match fuel with
  | O => None
  | S fuel' =>
      match solution_turn url max_question n keys with
      | Stop s => Some s
      | Again written address rest =>
          later written [address]
            (solution_loop fuel' url max_question (S n) rest)
      end
  end.

(** [find_solutions(url, answers)], [answers] being [None] or a list. *)
Definition find_solutions (fuel : nat) (url : pystr)
  (answers : option (list pystr)) (keys : list keyboard) : option session :=
  match answers with
  | None => Some ([], [], Raised TypeError keys)
  | Some l =>
      let max_question := Z.of_nat (List.length l) in
      later
        [print_info
           (py "Ready to fetch solutions for questions 1 to "
            ++ str_of_int max_question ++ py ".")]
        []
        (solution_loop fuel url max_question O keys)
  end.

End Solutions.

(** ** The extractor and [find_solutions] with a converter that raises *)

(** The spec takes [converter.latex_to_text] for a total function, and the
    definitions above follow it.  The converter of pylatexenc raises on some
    markups; the definitions of this module are the same code with a
    converter that can raise, and agree with those above for a converter
    that never does. *)
Module Raising.

(** What [extract_solution_content] raises: the [IndexError] of [pop(0)], or
    what the converter raises on the markup of an image. *)
Inductive raised : Type :=
| Index (e : exn)
| Conversion (markup : pystr).

Inductive attempt (A : Type) : Type :=
| Done (a : A)
| Failed (r : raised).
Arguments Done {A} a.
Arguments Failed {A} r.

Section Content.

(** [converter.latex_to_text]: the text, or [None] where it raises. *)
Variable latex_to_text : pystr -> option pystr.

(** The body of the loop over [sibling.descendants]. *)
Definition visit (solution_content : list pystr) (elem : node)
  : attempt (list pystr) :=
  if has_name "img" elem then
    let latex := get elem "alt" [] in
    match latex_to_text latex with
    | Some converted =>
        Done (solution_content ++ [strip_newlines converted])
    | None => Failed (Conversion latex)
    end
  else
    match elem with
    | Text s | Other _ s =>
        let text := strip s in
        if nonempty text then Done (solution_content ++ [strip text])
        else Done solution_content
    | Element _ _ _ _ => Done solution_content
    end.

(** [for elem in sibling.descendants]: an exception ends the loop. *)
Fixpoint visit_all (elems : list node) (solution_content : list pystr)
  : attempt (list pystr) :=
  match elems with
  | [] => Done solution_content
  | elem :: rest =>
      match visit solution_content elem with
      | Done solution_content' => visit_all rest solution_content'
      | Failed r => Failed r
      end
  end.

(** The [while sibling:] loop. *)
Fixpoint walk_siblings (siblings : list node)
  (solution_content : list pystr) : attempt (list pystr) :=
  match siblings with
  | [] => Done solution_content
  | sibling :: rest =>
      if negb (truthy sibling) then Done solution_content
      else if has_name "h2" sibling then Done solution_content
      else
        match
          (if is_block sibling
           then visit_all (descendants sibling) solution_content
           else Done solution_content)
        with
        | Done solution_content' =>
            walk_siblings rest (solution_content' ++ [newline])
        | Failed r => Failed r
        end
  end.

Definition extract_solution_content (soup : node) (section_index : Z)
  : attempt (list pystr) :=
  match find is_mw_parser_output soup with
  | None => Done []
  | Some mw_content =>
      if negb (truthy (ref_node mw_content)) then Done []
      else
        match section_anchors (ref_node mw_content) with
        | Raise e => Failed (Index e)
        | Ok h2_tags =>
            if negb ((0 <=? section_index)%Z &&
                     (section_index <? Z.of_nat (List.length h2_tags))%Z)
            then Done []
            else
              match nth_error h2_tags (Z.to_nat section_index) with
              | None => Failed (Index IndexError)
              | Some selected_h2 => walk_siblings (ref_next selected_h2) []
              end
        end
  end.

End Content.

Section Solutions.

Variable int : pystr -> option Z.
Variable latex_to_text : pystr -> option pystr.
Variable network : nat -> pystr -> response.

(** One turn of the [while True] loop of [find_solutions]. *)
Definition solution_turn (url : pystr) (max_question : Z) (n : nat)
  (keys : list keyboard) : turn :=
  let q :=
    get_valid_int int
      ([128269%N] ++ py " Enter the question number (or 0 to exit): ")
      1 max_question None None true keys in
  match snd q with
  | Waiting => Stop (fst q, [], Waiting)
  | Raised e rest => Stop (fst q, [], Raised e rest)
  | Returned question rest =>
      if (question =? 0)%Z then
        Stop (fst q ++ [print_info (py "Exiting solution finder.")],
              [], Returned tt rest)
      else
        let w1 :=
          fst q ++
          [print_info
             (py "Fetching solution page for question "
              ++ str_of_int question ++ py "...")] in
        let address := problem_url url question in
        match network n address with
        | RequestException e =>
            Again
              (w1 ++
               [print_error
                  (py "Network error while fetching the page: " ++ py e)])
              address rest
        | Fetched soup =>
            let sections := fetch_solution_sections soup in
            if negb (nonempty_list sections) then
              Again
                (w1 ++
                 [print_error
                    (py "No solution sections found for this question.")])
                address rest
            else
              let c :=
                get_valid_int int
                  ([128214%N]
                   ++ py " Enter section number to view (or 0 to go back): ")
                  1 (Z.of_nat (List.length sections)) None None true rest in
              let w2 :=
                w1 ++ [print_info (py "Available solution sections:")]
                ++ numbered 1 sections ++ fst c in
              match snd c with
              | Waiting => Stop (w2, [address], Waiting)
              | Raised e rest' => Stop (w2, [address], Raised e rest')
              | Returned section_choice rest' =>
                  if (section_choice =? 0)%Z then Again w2 address rest'
                  else
                    let w3 :=
                      w2 ++
                      [print_info
                         (py "Fetching and displaying solution...")] in
                    match
                      extract_solution_content latex_to_text soup
                        (section_choice - 1)
                    with
                    | Failed (Index e) =>
                        Stop (w3, [address], Raised (Escaped e) rest')
                    | Failed (Conversion markup) =>
                        Stop (w3, [address],
                              Raised (ConverterError markup) rest')
                    | Done content =>
                        Again
                          (w3 ++
                           if nonempty_list content then
                             [print_success ([128221%N] ++ py " Solution:");
                              print (join (py " ") content)]
                           else
                             [print_error
                                (py "No readable solution content found in the selected section.")])
                          address rest'
                    end
              end
        end
  end.

Fixpoint solution_loop (fuel : nat) (url : pystr) (max_question : Z)
  (n : nat) (keys : list keyboard) : option session :=
  match fuel with
  | O => None
  | S fuel' =>
      match solution_turn url max_question n keys with
      | Stop s => Some s
      | Again written address rest =>
          later written [address]
            (solution_loop fuel' url max_question (S n) rest)
      end
  end.

Definition find_solutions (fuel : nat) (url : pystr)
  (answers : option (list pystr)) (keys : list keyboard) : option session :=
  match answers with
  | None => Some ([], [], Raised TypeError keys)
  | Some l =>
      let max_question := Z.of_nat (List.length l) in
      later
        [print_info
           (py "Ready to fetch solutions for questions 1 to "
            ++ str_of_int max_question ++ py ".")]
        []
        (solution_loop fuel url max_question O keys)
  end.

End Solutions.

End Raising.

(** ** Stand-ins for the built-ins *)

(** The text of a string of ASCII code points. *)
Fixpoint ascii_text (s : pystr) : option string :=
  match s with
  | [] => Some EmptyString
  | c :: r =>
      if (c <? 128)%N
      then option_map (String (ascii_of_N c)) (ascii_text r)
      else None
  end.

(** [int] on the strings made of ASCII digits after an optional minus sign;
    [None] on every other string (of which [int] reads some: with a plus
    sign, with underscores, with other decimal digits). *)
Definition decimal_int (s : pystr) : option Z :=
  match ascii_text s with
  | Some t => option_map Z.of_int (DecimalString.NilZero.int_of_string t)
  | None => None
  end.

(** [upper] on ASCII letters; the other code points are left as they are. *)
Definition ascii_upper (s : pystr) : pystr :=
  map (fun c => if ((97 <=? c) && (c <=? 122))%N then (c - 32)%N else c) s.

(** ** Predicates of the command line *)

(** An ASCII digit. *)
Definition is_digit (c : N) : bool := ((48 <=? c) && (c <=? 57))%N.

Section Accepting.

Variable int : pystr -> option Z.

(** The value that [get_valid_int] returns on one keyboard event, if it
    returns on it. *)
Definition accepts (min_val max_val : Z) (allow_zero : bool)
  (k : keyboard) : option Z :=
  match k with
  | Fails _ => None
  | Line l =>
      if allow_zero && pystr_eqb (strip l) (py "0") then Some 0%Z
      else
        match int (strip l) with
        | Some value =>
            if ((value <? min_val) || (value >? max_val))%Z then None
            else Some value
        | None => None
        end
  end.

(** An event after which [get_valid_int] asks again: a line that is not
    accepted, or a [ValueError] of [input()]. *)
Definition asks_again (min_val max_val : Z) (allow_zero : bool)
  (k : keyboard) : bool :=
  match k with
  | Fails ValueError => true
  | Fails _ => false
  | Line _ =>
      match accepts min_val max_val allow_zero k with
      | Some _ => false
      | None => true
      end
  end.

End Accepting.

(** A line after which [get_valid_test_type] asks again. *)
Definition refused_type (upper : pystr -> pystr) (valid : list pystr)
  (k : keyboard) : bool :=
  match k with
  | Fails _ => false
  | Line l =>
      negb (nonempty (upper (strip l)))
      || negb (pystr_in (upper (strip l)) valid)
  end.

(** An address of a problem page for a question from 1 to [max_question]. *)
Definition problem_address (url : pystr) (max_question : Z)
  (address : pystr) : Prop :=
  exists question : Z,
    (1 <= question <= max_question)%Z /\
    address = problem_url url question.




(** ** A network and problem pages *)

(** The answers of the network in the order of the requests; the address is
    not looked at, and a request after the last answer fails. *)
Definition network_of (answers : list response) (n : nat) (address : pystr)
  : response :=
  nth n answers (RequestException "unreachable").

(** A problem page with its table of contents, the contents heading and one
    section. *)
Definition page_problem : node :=
  BeautifulSoup
    [mw_parser_output
       [Element "ul" [] [] [toc_entry "Solution 1"];
        h2 "Contents"; h2 "Solution 1"; paragraph "The answer is 5."]].

(** A page that lists a section and has no heading in its container. *)
Definition page_sections_without_heading : node :=
  BeautifulSoup
    [mw_parser_output [Element "ul" [] [] [toc_entry "Solution 1"]]].

(** A session at the keyboard: question 1 and its section 1, question 2,
    question 1 and its section 1 again, then 0. *)
Definition keys_session : list keyboard :=
  [Line (py "1"); Line (py "1"); Line (py "2"); Line (py "1");
   Line (py "1"); Line (py "0")].

(** The network of that session: the problem page, a failure, and the page
    without heading. *)
Definition network_session : nat -> pystr -> response :=
  network_of
    [Fetched page_problem; RequestException "timed out";
     Fetched page_sections_without_heading].

(** A problem page whose first section is followed at once by the heading
    of the second. *)
Definition page_empty_section : node :=
  BeautifulSoup
    [mw_parser_output [h2 "Contents"; h2 "Solution 1"; h2 "Solution 2"]].



(** ** Stripping *)

Section Strip.

Variable p : N -> bool.

Lemma dropwhile_split (s : pystr) :
  exists a, s = a ++ dropwhile p s /\ forallb p a = true.
Proof.
  induction s as [|c r [a [Hs Ha]]]; simpl.
  - exists []. split; reflexivity.
  - destruct (p c) eqn:Hc.
    + exists (c :: a). simpl. rewrite Hc, Ha. split; [|reflexivity].
      f_equal. exact Hs.
    + exists []. split; reflexivity.
Qed.

Lemma dropwhile_clean (s : pystr) : clean_front p (dropwhile p s).
Proof.
  induction s as [|c r IH]; simpl; [exact I|].
  destruct (p c) eqn:Hc; [exact IH | exact Hc].
Qed.

Lemma dropwhile_fixed (s : pystr) : clean_front p s -> dropwhile p s = s.
Proof.
  destruct s as [|c r]; simpl; [reflexivity|].
  intros ->. reflexivity.
Qed.

(** Dropping at the front keeps a clean end clean. *)
Lemma dropwhile_keeps_back (s : pystr) :
  clean_back p s -> clean_back p (dropwhile p s).
Proof.
  unfold clean_back.
  induction s as [|c r IH]; simpl; [trivial|].
  destruct (p c) eqn:Hc; [|trivial].
  intros H. apply IH.
  destruct (rev r) as [|d t] eqn:Hr; simpl in *; [exact I | exact H].
Qed.

Lemma rstrip_by_split (s : pystr) :
  exists b, s = rstrip_by p s ++ b /\ forallb p b = true.
Proof.
  unfold rstrip_by.
  destruct (dropwhile_split (rev s)) as [a [Hs Ha]].
  exists (rev a). split.
  - rewrite <- (rev_involutive s), Hs at 1. rewrite rev_app_distr. reflexivity.
  - rewrite forallb_forall in *. intros x Hx. apply Ha, in_rev, Hx.
Qed.

Lemma strip_by_clean_back (s : pystr) : clean_back p (strip_by p s).
Proof.
  unfold strip_by, rstrip_by, clean_back.
  rewrite rev_involutive. apply dropwhile_clean.
Qed.

Lemma strip_by_clean_front (s : pystr) : clean_front p (strip_by p s).
Proof.
  unfold strip_by, rstrip_by, lstrip_by.
  pose proof (dropwhile_clean s) as Hc.
  rewrite <- (rev_involutive (dropwhile p s)) in Hc.
  apply (dropwhile_keeps_back (rev (dropwhile p s))) in Hc.
  exact Hc.
Qed.

(** What [strip] takes away: a run of the stripped characters at each end,
    and nothing else. *)
Lemma strip_by_split (s : pystr) :
  exists a b,
    s = a ++ strip_by p s ++ b /\
    forallb p a = true /\ forallb p b = true.
Proof.
  destruct (dropwhile_split s) as [a [Hs Ha]].
  destruct (rstrip_by_split (dropwhile p s)) as [b [Ht Hb]].
  exists a, b. repeat split; try assumption.
  unfold strip_by, lstrip_by. rewrite <- Ht. exact Hs.
Qed.

Lemma strip_by_fixed (s : pystr) :
  clean_front p s -> clean_back p s -> strip_by p s = s.
Proof.
  intros Hf Hb. unfold strip_by, rstrip_by, lstrip_by.
  rewrite (dropwhile_fixed s Hf).
  rewrite (dropwhile_fixed (rev s) Hb).
  apply rev_involutive.
Qed.

Lemma strip_by_idempotent (s : pystr) :
  strip_by p (strip_by p s) = strip_by p s.
Proof.
  apply strip_by_fixed;
    [apply strip_by_clean_front | apply strip_by_clean_back].
Qed.

End Strip.

(** ** The tree *)

(** Induction on a node with the property known for its contents. *)
Lemma node_forall_ind (P : node -> Prop) :
  (forall s, P (Text s)) ->
  (forall nm cls a cs, Forall P cs -> P (Element nm cls a cs)) ->
  (forall c s, P (Other c s)) ->
  forall n, P n.
Proof.
  intros HT HE HO. fix IH 1. intros [s | nm cls a cs | c s].
  - apply HT.
  - apply HE. induction cs as [|c r IHr]; constructor.
    + apply IH.
    + exact IHr.
  - apply HO.
Qed.

Lemma located_in_placed below parent rest l :
  chained parent rest ->
  (forall c, In c l -> forall r, In r (below c) -> well_placed r) ->
  forall before r,
    contents_of parent = before ++ l ->
    In r (located_in below (parent :: rest) l) -> well_placed r.
Proof.
  intros Hch. induction l as [|c l' IH]; intros Hbelow before r Hcs; simpl.
  - intros [].
  - intros [<- | Hin].
    + unfold well_placed; simpl. split; [|exact Hch].
      exists before. exact Hcs.
    + apply in_app_or in Hin. destruct Hin as [Hin | Hin].
      * apply (Hbelow c); [left; reflexivity | exact Hin].
      * apply (IH (fun c' Hc' => Hbelow c' (or_intror Hc')) (before ++ [c])).
        -- rewrite <- app_assoc. exact Hcs.
        -- exact Hin.
Qed.

(** Every reference that a traversal gives says where its node is. *)
Lemma located_placed n :
  forall anc r, chained n anc -> In r (located anc n) -> well_placed r.
Proof.
  induction n as [s | nm cls a cs IH | c s] using node_forall_ind;
    intros anc r Hch; simpl; try (intros []).
  - apply (located_in_placed _ (Element nm cls a cs) anc cs Hch) with (before := []).
    + intros c Hc r' Hr'. rewrite Forall_forall in IH.
      apply (IH c Hc (Element nm cls a cs :: anc) r'); [|exact Hr'].
      simpl. split; [exact Hc | exact Hch].
    + reflexivity.
Qed.

Lemma find_all_In p n r :
  In r (find_all p n) -> p (ref_node r) = true /\ well_placed r.
Proof.
  unfold find_all. rewrite filter_In. intros [Hin Hp]. split; [exact Hp|].
  apply (located_placed n [] r I Hin).
Qed.

Lemma find_Some p n r :
  find p n = Some r -> p (ref_node r) = true /\ well_placed r.
Proof.
  unfold find. destruct (find_all p n) as [|x l] eqn:E; [discriminate|].
  intros [= <-]. apply (find_all_In p n). rewrite E. left. reflexivity.
Qed.

Lemma find_None p n : find p n = None <-> find_all p n = [].
Proof.
  unfold find. destruct (find_all p n); split; congruence.
Qed.

Lemma has_name_truthy nm n : has_name nm n = true -> truthy n = true.
Proof. destruct n; [discriminate | reflexivity | discriminate]. Qed.

Lemma has_class_truthy c n : has_class c n = true -> truthy n = true.
Proof. destruct n; [discriminate | reflexivity | discriminate]. Qed.

(** A selected item is a list item of the answer list. *)
Lemma select_answer_items_In soup r :
  In r (select_answer_items soup) -> in_answer_list r.
Proof.
  unfold select_answer_items. rewrite filter_In. intros [Hin Hsel].
  pose proof (located_placed soup [] r I Hin) as Hpl.
  unfold in_answer_list.
  unfold answer_item in Hsel. unfold well_placed in Hpl.
  apply andb_true_iff in Hsel. destruct Hsel as [Hli Hanc].
  split; [exact Hli|].
  destruct (ref_ancestors r) as [|ol [|container above]];
    try discriminate.
  apply andb_true_iff in Hanc. destruct Hanc as [Hol Hdiv].
  exists ol, container, above. repeat split; try assumption.
  - destruct Hpl as [[before Hb] _]. rewrite Hb.
    apply in_or_app. right. left. reflexivity.
  - destruct Hpl as [_ [Hc _]]. exact Hc.
Qed.

(** Every node of the contents of [n] is reached, with [n] as its parent. *)
Lemma located_in_child below anc l c :
  In c l ->
  exists r,
    In r (located_in below anc l) /\ ref_node r = c /\ ref_ancestors r = anc.
Proof.
  induction l as [|x l' IH]; simpl; [intros []|].
  intros [-> | Hin].
  - eexists. split; [left; reflexivity|]. split; reflexivity.
  - destruct (IH Hin) as [r [Hr Hrest]]. exists r. split; [|exact Hrest].
    right. apply in_or_app. right. exact Hr.
Qed.

Lemma located_child n anc c :
  In c (contents_of n) ->
  exists r,
    In r (located anc n) /\ ref_node r = c /\ ref_ancestors r = n :: anc.
Proof.
  destruct n as [s | nm cls a cs | k s]; simpl; try (intros []).
  apply located_in_child.
Qed.

Lemma located_in_below (below : node -> list tagref) anc l :
  (forall c, In c l -> forall r r',
     In r (below c) ->
     In r' (located (ref_ancestors r) (ref_node r)) -> In r' (below c)) ->
  (forall c, below c = located anc c) ->
  forall r r',
    In r (located_in below anc l) ->
    In r' (located (ref_ancestors r) (ref_node r)) ->
    In r' (located_in below anc l).
Proof.
  intros Hsub Hbelow. induction l as [|c l' IH]; intros r r'; simpl.
  - intros [].
  - intros [<- | Hin] Hr'.
    + simpl in Hr'. right. apply in_or_app. left.
      rewrite Hbelow. exact Hr'.
    + right. apply in_or_app. apply in_app_or in Hin.
      destruct Hin as [Hin | Hin].
      * left. apply (Hsub c (or_introl eq_refl) r r' Hin Hr').
      * right.
        exact (IH (fun c' Hc' => Hsub c' (or_intror Hc')) r r' Hin Hr').
Qed.

(** What is below a node reached from [n] is reached from [n]. *)
Lemma located_below n :
  forall anc r r',
    In r (located anc n) ->
    In r' (located (ref_ancestors r) (ref_node r)) ->
    In r' (located anc n).
Proof.
  induction n as [s | nm cls a cs IH | c s] using node_forall_ind;
    intros anc r r'; simpl; try (intros []).
  - apply located_in_below; [|reflexivity].
    intros c Hc r0 r0' H0 H0'. rewrite Forall_forall in IH.
    exact (IH c Hc _ r0 r0' H0 H0').
Qed.

(** Every [li] in the contents of an [ol] in the contents of a [div] of class
    [mw-parser-output] of the page is selected. *)
Lemma select_answer_items_complete soup container ol item :
  In container (located [] soup) ->
  is_mw_parser_output (ref_node container) = true ->
  In ol (contents_of (ref_node container)) -> has_name "ol" ol = true ->
  In item (contents_of ol) -> has_name "li" item = true ->
  exists r, In r (select_answer_items soup) /\ ref_node r = item.
Proof.
  intros Hc Hdiv Hol Hol_name Hli Hli_name.
  destruct (located_child (ref_node container) (ref_ancestors container)
              ol Hol) as [r_ol [Hr_ol [Eol Aol]]].
  pose proof (located_below soup [] container r_ol Hc Hr_ol) as Hin_ol.
  destruct (located_child ol (ref_ancestors r_ol) item) as [r [Hr [E A]]];
    [exact Hli|].
  rewrite <- Eol in Hr at 1.
  pose proof (located_below soup [] r_ol r Hin_ol Hr) as Hin.
  exists r. split; [|exact E].
  unfold select_answer_items. apply filter_In. split; [exact Hin|].
  unfold answer_item. rewrite E, A, Aol, Hli_name, Hol_name, Hdiv.
  reflexivity.
Qed.

(** The traversal that the code makes is the document order of the tree. *)
Lemma located_in_nodes (A : list node) (cs : list node) :
  Forall (fun c => forall anc, map ref_node (located anc c) = below c) cs ->
  map ref_node (located_in (located A) A cs)
  = flat_map (fun c => c :: below c) cs.
Proof.
  induction cs as [|c r IH]; intros H; [reflexivity|].
  inversion H as [|x l Hc Hr]; subst. simpl.
  rewrite map_app, (Hc A), (IH Hr). reflexivity.
Qed.

Lemma located_nodes n : forall anc, map ref_node (located anc n) = below n.
Proof.
  induction n as [s | nm cls a cs IH | c s] using node_forall_ind;
    intros anc; try reflexivity.
  simpl. apply located_in_nodes, IH.
Qed.

Lemma descendants_below n : descendants n = below n.
Proof. apply located_nodes. Qed.

Lemma map_filter_ref (p : node -> bool) (l : list tagref) :
  map ref_node (filter (fun r => p (ref_node r)) l)
  = filter p (map ref_node l).
Proof.
  induction l as [|r l' IH]; simpl; [reflexivity|].
  destruct (p (ref_node r)); simpl; rewrite IH; reflexivity.
Qed.

Lemma find_all_below p n : map ref_node (find_all p n) = filter p (below n).
Proof.
  unfold find_all. rewrite map_filter_ref, located_nodes. reflexivity.
Qed.

Lemma interesting_string nm d :
  interesting nm d
  = match string_container nm with
    | None => plain_string d
    | Some k => string_of_class k d
    end.
Proof.
  unfold interesting. destruct (string_container nm) as [k|];
    destruct d as [s | | c s]; try reflexivity; destruct c; reflexivity.
Qed.

(** [.text] of a tag is its display text. *)
Lemma text_display nm cls a cs :
  text (Element nm cls a cs) = display_text (Element nm cls a cs).
Proof.
  unfold text, display_text. rewrite descendants_below.
  destruct (string_container nm) as [k|] eqn:E; apply flat_map_ext;
    intros d; rewrite interesting_string, E; reflexivity.
Qed.

(** [.text] of a tag that has no string container of its own, such as a list
    item, is made of its plain strings. *)
Lemma text_plain nm cls a cs :
  string_container nm = None ->
  text (Element nm cls a cs)
  = flat_map plain_string (below (Element nm cls a cs)).
Proof.
  intros H. rewrite text_display. unfold display_text. rewrite H.
  reflexivity.
Qed.

Lemma text_of_list_item n :
  has_name "li" n = true -> text n = flat_map plain_string (below n).
Proof.
  destruct n as [s | nm cls a cs | c s]; try discriminate.
  unfold has_name. simpl. intros H. apply String.eqb_eq in H. subst nm.
  apply text_plain. reflexivity.
Qed.

(** ** [extract_solution_content]: the guards *)

Section ExtractGuards.

Variable latex_to_text : pystr -> pystr.

Lemma extract_no_container soup i :
  find is_mw_parser_output soup = None ->
  extract_solution_content latex_to_text soup i = Ok [].
Proof. unfold extract_solution_content. intros ->. reflexivity. Qed.

Lemma container_truthy soup mw :
  find is_mw_parser_output soup = Some mw -> truthy (ref_node mw) = true.
Proof.
  intros H. apply find_Some in H. destruct H as [H _].
  apply andb_true_iff in H. destruct H as [H _].
  apply (has_name_truthy "div"), H.
Qed.

(** With the container found and one heading at least, the call comes down
    to the test of the index against the headings that are left. *)
Lemma extract_with_anchors soup mw first h2_tags i :
  find is_mw_parser_output soup = Some mw ->
  find_all (has_name "h2") (ref_node mw) = first :: h2_tags ->
  extract_solution_content latex_to_text soup i =
    if ((0 <=? i)%Z && (i <? Z.of_nat (List.length h2_tags))%Z)
    then match nth_error h2_tags (Z.to_nat i) with
         | Some selected_h2 =>
             Ok (walk_siblings latex_to_text (ref_next selected_h2) [])
         | None => Raise IndexError
         end
    else Ok [].
Proof.
  intros Hmw Hh2. unfold extract_solution_content, section_anchors.
  rewrite Hmw, (container_truthy soup mw Hmw), Hh2. simpl.
  destruct ((0 <=? i)%Z && (i <? Z.of_nat (List.length h2_tags))%Z);
    reflexivity.
Qed.

Lemma extract_no_heading soup mw i :
  find is_mw_parser_output soup = Some mw ->
  find_all (has_name "h2") (ref_node mw) = [] ->
  extract_solution_content latex_to_text soup i = Raise IndexError.
Proof.
  intros Hmw Hh2. unfold extract_solution_content, section_anchors.
  rewrite Hmw, (container_truthy soup mw Hmw), Hh2. reflexivity.
Qed.

End ExtractGuards.

(** C1. On a page whose main content container holds no [h2] heading,
    [extract_solution_content] does not return the empty list for an index
    out of range: [h2_tags.pop(0)] raises [IndexError], whatever the index
    and the converter. *)
Theorem extract_solution_content_pop_raises :
  forall (latex_to_text : pystr -> pystr) (section_index : Z),
    extract_solution_content latex_to_text page_without_heading section_index
    = Raise IndexError.
Proof. intros conv i. reflexivity. Qed.

(** ** [scrape_answers] *)

Lemma stripped_texts_map_filter elements :
  stripped_texts elements = map trimmed (filter kept elements).
Proof.
  induction elements as [|li0 rest IH]; simpl; [reflexivity|].
  unfold kept at 1, trimmed at 1 2.
  destruct (nonempty (strip (text (ref_node li0)))); simpl;
    rewrite IH; reflexivity.
Qed.

Lemma scrape_answers_found url soup :
  select_answer_items soup <> [] ->
  snd (scrape_answers url (Fetched soup))
  = Some (stripped_texts (select_answer_items soup)).
Proof.
  intros H. unfold scrape_answers.
  destruct (select_answer_items soup); [contradiction | reflexivity].
Qed.

Lemma scrape_answers_not_found url soup :
  select_answer_items soup = [] ->
  scrape_answers url (Fetched soup)
  = ([Info ("Fetching data from: " ++ url)%string;
      Success "Successfully fetched webpage!";
      Error "No answers found with the expected format. The page structure might have changed."],
     None).
Proof. intros H. unfold scrape_answers. rewrite H. reflexivity. Qed.

(** C2, as the claim states it, fails: a page fetched without the expected
    list and a request that timed out give the caller the same value. *)
Lemma scrape_answers_failures_share_value :
  select_answer_items page_no_list = [] /\
  snd (scrape_answers "u" (Fetched page_no_list)) = None /\
  snd (scrape_answers "u" (RequestException "timed out")) = None.
Proof. repeat split. Qed.

(** C2, amended. The structural failure and the network failure both return
    [None], so the returned value does not tell them apart; what differs is
    the message written: the structural failure writes the line on the
    expected format after the line on the successful fetch, the network
    failure writes the line on the error of the fetch. *)
Theorem scrape_answers_failures_return_none :
  forall (url : string) (soup : node) (e : string),
    select_answer_items soup = [] ->
    snd (scrape_answers url (Fetched soup)) = None /\
    snd (scrape_answers url (RequestException e)) = None /\
    snd (scrape_answers url (Fetched soup))
    = snd (scrape_answers url (RequestException e)) /\
    fst (scrape_answers url (Fetched soup))
    <> fst (scrape_answers url (RequestException e)).
Proof.
  intros url soup e H. rewrite (scrape_answers_not_found url soup H). simpl.
  repeat split. discriminate.
Qed.

(** On a page without the list and on a request that timed out. *)
Lemma scrape_answers_failures_return_none_witness :
  select_answer_items page_no_list = [] /\
  snd (scrape_answers "u" (Fetched page_no_list)) = None /\
  snd (scrape_answers "u" (RequestException "timed out")) = None /\
  snd (scrape_answers "u" (Fetched page_no_list))
  = snd (scrape_answers "u" (RequestException "timed out")) /\
  fst (scrape_answers "u" (Fetched page_no_list))
  <> fst (scrape_answers "u" (RequestException "timed out")).
Proof.
  split; [reflexivity|].
  apply (scrape_answers_failures_return_none "u" page_no_list "timed out").
  reflexivity.
Defined.

(** C3. On a page where the selector finds list items, [scrape_answers]
    returns a list: the trimmed texts, in document order, of the selected
    items whose trimmed text is not empty; its length is the number of those
    items.  Each selected item is a [li] in the contents of an [ol] in the
    contents of the main content container, and its text is made of the
    plain strings below it in document order (a comment, a script or a style
    sheet in the item is no part of it). *)
Theorem scrape_answers_items :
  forall (url : string) (soup : node),
    select_answer_items soup <> [] ->
    exists answers,
      snd (scrape_answers url (Fetched soup)) = Some answers /\
      answers = map trimmed (filter kept (select_answer_items soup)) /\
      List.length answers
      = List.length (filter kept (select_answer_items soup)) /\
      Forall (fun a => strip a = a /\ a <> []) answers /\
      Forall in_answer_list (select_answer_items soup) /\
      Forall
        (fun item =>
           text (ref_node item)
           = flat_map plain_string (below (ref_node item)))
        (select_answer_items soup).
Proof.
  intros url soup H.
  exists (map trimmed (filter kept (select_answer_items soup))).
  rewrite (scrape_answers_found url soup H), stripped_texts_map_filter.
  repeat split.
  - apply length_map.
  - rewrite Forall_forall. intros a Ha. apply in_map_iff in Ha.
    destruct Ha as [r [<- Hr]]. apply filter_In in Hr. destruct Hr as [_ Hk].
    split.
    + apply strip_by_idempotent.
    + unfold kept in Hk. destruct (trimmed r); [discriminate | discriminate].
  - rewrite Forall_forall. apply select_answer_items_In.
  - rewrite Forall_forall. intros item Hitem.
    apply text_of_list_item, (select_answer_items_In soup item Hitem).
Qed.

(** On an answer key whose items hold a comment, a script and a style
    sheet: the texts are "A" and "B", and the item of the script is left
    out. *)
Lemma scrape_answers_items_witness :
  select_answer_items page_answers_markup <> [] /\
  snd (scrape_answers "u" (Fetched page_answers_markup))
  = Some [py "A"; py "B"].
Proof.
  split; [discriminate|].
  destruct (scrape_answers_items "u" page_answers_markup)
    as [answers [H [E _]]]; [discriminate|].
  rewrite H, E. reflexivity.
Defined.

(** C4, as the claim states it, fails: on a page whose only list item is
    blank, nothing is kept, and the value returned is the empty list, not
    [None]. *)
Lemma scrape_answers_blank_item_present :
  filter kept (select_answer_items page_blank_item) = [] /\
  snd (scrape_answers "u" (Fetched page_blank_item)) = Some [] /\
  snd (scrape_answers "u" (Fetched page_blank_item)) <> None.
Proof. repeat split. discriminate. Qed.

(** C4, amended. [scrape_answers] returns [None] for a fetched page exactly
    when the selector finds no list item; when it finds items that all trim
    to empty, it returns the empty list. *)
Theorem scrape_answers_none_iff_no_item :
  forall (url : string) (soup : node),
    (select_answer_items soup = [] ->
     snd (scrape_answers url (Fetched soup)) = None) /\
    (select_answer_items soup <> [] ->
     filter kept (select_answer_items soup) = [] ->
     snd (scrape_answers url (Fetched soup)) = Some []) /\
    (snd (scrape_answers url (Fetched soup)) = None ->
     select_answer_items soup = []).
Proof.
  intros url soup. repeat split.
  - intros H. rewrite (scrape_answers_not_found url soup H). reflexivity.
  - intros H Hk.
    rewrite (scrape_answers_found url soup H), stripped_texts_map_filter, Hk.
    reflexivity.
  - unfold scrape_answers.
    destruct (select_answer_items soup); [reflexivity | discriminate].
Qed.

(** On a page without the list and on a page whose only item is blank. *)
Lemma scrape_answers_none_iff_no_item_witness :
  snd (scrape_answers "u" (Fetched page_no_list)) = None /\
  snd (scrape_answers "u" (Fetched page_blank_item)) = Some [].
Proof.
  split.
  - apply (proj1 (scrape_answers_none_iff_no_item "u" page_no_list)).
    reflexivity.
  - apply (proj1 (proj2 (scrape_answers_none_iff_no_item "u" page_blank_item))).
    + discriminate.
    + reflexivity.
Defined.

(** ** [extract_solution_content]: the walk *)

Section Walk.

Variable latex_to_text : pystr -> pystr.

Lemma visit_app acc elem :
  visit latex_to_text acc elem = acc ++ fragments_of latex_to_text elem.
Proof.
  unfold fragments_of, visit.
  destruct (has_name "img" elem); [reflexivity|].
  destruct elem as [s | | c s]; try (symmetry; apply app_nil_r);
    (destruct (nonempty (strip s));
     [reflexivity | symmetry; apply app_nil_r]).
Qed.

Lemma fold_visit ds : forall acc,
  fold_left (visit latex_to_text) ds acc
  = acc ++ flat_map (fragments_of latex_to_text) ds.
Proof.
  induction ds as [|d r IH]; intros acc; simpl.
  - symmetry. apply app_nil_r.
  - rewrite IH, visit_app, <- app_assoc. reflexivity.
Qed.

Lemma visit_img acc elem :
  has_name "img" elem = true ->
  visit latex_to_text acc elem
  = acc ++ [strip_newlines (latex_to_text (get elem "alt" []))].
Proof. unfold visit. intros ->. reflexivity. Qed.

Lemma visit_text acc s :
  visit latex_to_text acc (Text s)
  = if nonempty (strip s) then acc ++ [strip s] else acc.
Proof.
  unfold visit. simpl.
  destruct (nonempty (strip s)); [|reflexivity].
  unfold strip. rewrite strip_by_idempotent. reflexivity.
Qed.

Lemma get_absent elem key default :
  has_attr key elem = false -> get elem key default = default.
Proof.
  destruct elem as [s | nm cls a cs | c s]; simpl; try reflexivity.
  induction a as [|[k v] r IH]; simpl; [reflexivity|].
  destruct (String.eqb k key); [discriminate | exact IH].
Qed.

(** One turn of the loop on a sibling that does not end it. *)
Lemma walk_step sibling rest acc :
  truthy sibling = true -> has_name "h2" sibling = false ->
  walk_siblings latex_to_text (sibling :: rest) acc
  = walk_siblings latex_to_text rest
      (acc ++ sibling_fragments latex_to_text sibling ++ [newline]).
Proof.
  intros Ht Hh. simpl. rewrite Ht, Hh. simpl.
  unfold sibling_fragments.
  destruct (is_block sibling).
  - rewrite fold_visit, <- app_assoc. reflexivity.
  - reflexivity.
Qed.

(** The loop over siblings that do not end it, up to a heading. *)
Lemma walk_until_heading pre : forall next_h2 post acc,
  Forall (fun s => has_name "h2" s = false /\ truthy s = true) pre ->
  has_name "h2" next_h2 = true ->
  walk_siblings latex_to_text (pre ++ next_h2 :: post) acc
  = acc ++
    flat_map (fun s => sibling_fragments latex_to_text s ++ [newline]) pre.
Proof.
  induction pre as [|s pre' IH]; intros next_h2 post acc Hpre Hh.
  - simpl. rewrite Hh, (has_name_truthy "h2" next_h2 Hh). simpl.
    symmetry. apply app_nil_r.
  - inversion Hpre as [|x l [Hs Ht] Hrest]; subst.
    rewrite <- app_comm_cons, (walk_step s _ acc Ht Hs).
    rewrite (IH next_h2 post _ Hrest Hh). simpl.
    rewrite <- !app_assoc. reflexivity.
Qed.

End Walk.

(** C5, as the claim states it, fails: on a page where the heading selected
    is followed by exactly one paragraph, whose text is "The answer is 5.",
    and then by a heading, the result is not that text and a newline when the
    paragraph has a word in bold: each string of the paragraph is a fragment
    of its own. *)
Lemma paragraph_with_markup_is_split :
  text paragraph_inline = py "The answer is 5." /\
  map ref_next
    (find_all (has_name "h2")
       (mw_parser_output
          [h2 "Contents"; h2 "Solution 1"; paragraph_inline;
           h2 "Solution 2"]))
  = [[h2 "Solution 1"; paragraph_inline; h2 "Solution 2"];
     [paragraph_inline; h2 "Solution 2"]; []] /\
  extract_solution_content plain_converter page_inline_markup 0
  = Ok [py "The answer is"; py "5"; py "."; [10%N]] /\
  extract_solution_content plain_converter page_inline_markup 0
  <> Ok [py "The answer is 5."; [10%N]].
Proof. repeat split. discriminate. Qed.

(** C5, amended. When the heading selected by the index is followed by
    siblings that are not [h2] headings (none of them an empty string, at
    which [while sibling:] would end the walk) and then by an [h2] heading,
    [extract_solution_content] returns, for each of those siblings in order
    and whatever its type, its fragments and then one fragment that is the
    newline character, and nothing of the heading or of what follows it.
    With one paragraph before the heading, holding one string that trims to
    "The answer is 5.", the result is that text and the newline. *)
Theorem walk_stops_at_next_heading :
  forall (latex_to_text : pystr -> pystr) (soup : node) (mw first : tagref)
         (h2_tags : list tagref) (section_index : Z) (selected_h2 : tagref)
         (pre : list node) (next_h2 : node) (post : list node),
    find is_mw_parser_output soup = Some mw ->
    find_all (has_name "h2") (ref_node mw) = first :: h2_tags ->
    (0 <= section_index)%Z ->
    nth_error h2_tags (Z.to_nat section_index) = Some selected_h2 ->
    ref_next selected_h2 = pre ++ next_h2 :: post ->
    has_name "h2" next_h2 = true ->
    Forall (fun s => has_name "h2" s = false /\ truthy s = true) pre ->
    extract_solution_content latex_to_text soup section_index
    = Ok (flat_map
            (fun s => sibling_fragments latex_to_text s ++ [[10%N]]) pre) /\
    (forall cls a s,
       strip s = py "The answer is 5." ->
       pre = [Element "p" cls a [Text s]] ->
       extract_solution_content latex_to_text soup section_index
       = Ok [py "The answer is 5."; [10%N]]).
Proof.
  intros conv soup mw first h2_tags i sel pre next_h2 post
         Hmw Hh2 Hi Hsel Hnext Hh Hpre.
  assert (E : extract_solution_content conv soup i
              = Ok (flat_map
                      (fun s => sibling_fragments conv s ++ [[10%N]]) pre)).
  { rewrite (extract_with_anchors conv soup mw first h2_tags i Hmw Hh2).
    assert (Hlt : (Z.to_nat i < List.length h2_tags)%nat).
    { apply nth_error_Some. rewrite Hsel. discriminate. }
    replace ((0 <=? i)%Z && (i <? Z.of_nat (List.length h2_tags))%Z)
      with true.
    - rewrite Hsel, Hnext.
      rewrite (walk_until_heading conv pre next_h2 post [] Hpre Hh).
      reflexivity.
    - symmetry. apply andb_true_iff. split.
      + apply Z.leb_le. exact Hi.
      + apply Z.ltb_lt. lia. }
  split; [exact E|].
  intros cls a s Hs ->. rewrite E.
  change (flat_map (fun s0 => sibling_fragments conv s0 ++ [[10%N]])
            [Element "p" cls a [Text s]])
    with (((visit conv [] (Text s) ++ []) ++ [[10%N]]) ++ []).
  rewrite visit_text, Hs. reflexivity.
Qed.

(** On a page with the contents heading and two sections. *)
Lemma walk_stops_at_next_heading_witness :
  extract_solution_content plain_converter page_two_sections 0
  = Ok [py "The answer is 5."; [10%N]].
Proof.
  refine (proj2 (walk_stops_at_next_heading plain_converter page_two_sections
            _ _ _ 0 _ [paragraph "The answer is 5."] (h2 "Solution 2")
            [paragraph "By symmetry."]
            eq_refl eq_refl _ eq_refl eq_refl eq_refl _)
            [] [] (py "The answer is 5.") eq_refl eq_refl).
  - lia.
  - repeat constructor.
Defined.

(** C6, as the claim states it, fails: for an image whose markup the
    converter gives back as a newline, "x" and a newline, the fragment is
    "x", not the converted text without its trailing newline only. *)
Lemma image_fragment_loses_leading_newline :
  has_name "img" img_display = true /\
  fragments_of plain_converter img_display = [py "x"] /\
  rstrip_by isnewline (plain_converter (get img_display "alt" []))
  = 10%N :: py "x" /\
  fragments_of plain_converter img_display
  <> [rstrip_by isnewline (plain_converter (get img_display "alt" []))].
Proof. repeat split. discriminate. Qed.

(** C6, amended. For every image among the descendants visited, the value of
    its [alt] attribute (the empty string when it has none) is converted, the
    newline characters at the start and at the end of the converted text are
    removed, and nothing else is, and the result is appended as one fragment
    between the fragments of the descendants before and after it. *)
Theorem image_fragment_strip_newlines :
  forall (latex_to_text : pystr -> pystr) (elem : node)
         (before after : list node),
    has_name "img" elem = true ->
    let converted := latex_to_text (get elem "alt" []) in
    let fragment := strip_newlines converted in
    fragments_of latex_to_text elem = [fragment] /\
    fold_left (visit latex_to_text) (before ++ elem :: after) []
    = fold_left (visit latex_to_text) before [] ++
      fragment :: fold_left (visit latex_to_text) after [] /\
    (exists a b,
       converted = a ++ fragment ++ b /\
       forallb isnewline a = true /\ forallb isnewline b = true) /\
    clean_front isnewline fragment /\ clean_back isnewline fragment.
Proof.
  intros conv elem before after Himg converted fragment.
  assert (F : fragments_of conv elem = [fragment]).
  { unfold fragments_of. rewrite (visit_img conv [] elem Himg). reflexivity. }
  split; [exact F|]. split.
  - rewrite !fold_visit, flat_map_app. simpl. rewrite F. reflexivity.
  - split; [apply strip_by_split|].
    split; [apply strip_by_clean_front | apply strip_by_clean_back].
Qed.

(** An image between two strings. *)
Lemma image_fragment_strip_newlines_witness :
  has_name "img" img_display = true /\
  fold_left (visit plain_converter)
            ([Text (py "so ")] ++ img_display :: [Text (py " holds")]) []
  = [py "so"; py "x"; py "holds"].
Proof.
  split; [reflexivity|].
  rewrite (proj1 (proj2 (image_fragment_strip_newlines plain_converter
             img_display [Text (py "so ")] [Text (py " holds")] eq_refl))).
  reflexivity.
Defined.

(** C10. An image among the descendants visited always adds one fragment,
    also when the converted markup is empty: an image without [alt] adds the
    empty string (the converter giving the empty text for the empty markup);
    a string that trims to empty adds nothing. *)
Theorem image_kept_blank_text_dropped :
  forall (latex_to_text : pystr -> pystr) (acc : list pystr),
    (forall elem,
       has_name "img" elem = true ->
       visit latex_to_text acc elem
       = acc ++ [strip_newlines (latex_to_text (get elem "alt" []))] /\
       List.length (visit latex_to_text acc elem) = S (List.length acc)) /\
    (forall elem,
       has_name "img" elem = true -> has_attr "alt" elem = false ->
       latex_to_text [] = [] ->
       visit latex_to_text acc elem = acc ++ [[]]) /\
    (forall s,
       strip s = [] -> visit latex_to_text acc (Text s) = acc) /\
    (forall s,
       strip s <> [] -> visit latex_to_text acc (Text s) = acc ++ [strip s]).
Proof.
  intros conv acc. repeat split.
  - apply visit_img. assumption.
  - rewrite (visit_img conv acc elem H), length_app. simpl. lia.
  - intros elem Himg Halt Hconv.
    rewrite (visit_img conv acc elem Himg), (get_absent elem "alt" [] Halt).
    rewrite Hconv. reflexivity.
  - intros s Hs. rewrite visit_text, Hs. reflexivity.
  - intros s Hs. rewrite visit_text.
    destruct (strip s); [contradiction | reflexivity].
Qed.

(** An image without [alt], and a blank string. *)
Lemma image_kept_blank_text_dropped_witness :
  visit plain_converter [py "see"] img_bare = [py "see"; []] /\
  visit plain_converter [py "see"] (Text (py "  ")) = [py "see"].
Proof.
  split.
  - apply (proj1 (proj2 (image_kept_blank_text_dropped plain_converter
                           [py "see"])) img_bare); reflexivity.
  - apply (proj1 (proj2 (proj2 (image_kept_blank_text_dropped plain_converter
                                  [py "see"]))) (py "  ")).
    reflexivity.
Defined.

(** ** [fetch_solution_sections] *)

Lemma add_section_app result content :
  add_section result content
  = result ++
    match find (has_class "toctext") (ref_node content) with
    | Some display => [strip (text (ref_node display))]
    | None => []
    end.
Proof.
  unfold add_section.
  destruct (find (has_class "toctext") (ref_node content)) as [t|] eqn:E.
  - apply find_Some in E. destruct E as [E _].
    rewrite (has_class_truthy "toctext" _ E). reflexivity.
  - symmetry. apply app_nil_r.
Qed.

Lemma fold_add_section toc_sections : forall result,
  fold_left add_section toc_sections result
  = result ++
    flat_map
      (fun entry =>
         match find (has_class "toctext") (ref_node entry) with
         | Some display => [strip (text (ref_node display))]
         | None => []
         end) toc_sections.
Proof.
  induction toc_sections as [|c r IH]; intros result; simpl.
  - symmetry. apply app_nil_r.
  - rewrite IH, add_section_app, <- app_assoc. reflexivity.
Qed.

Lemma fetch_solution_sections_length soup :
  List.length (fetch_solution_sections soup)
  = List.length
      (filter has_display_text (find_all (has_class "toclevel-1") soup)).
Proof.
  unfold fetch_solution_sections. rewrite fold_add_section. simpl.
  induction (find_all (has_class "toclevel-1") soup) as [|c r IH];
    simpl; [reflexivity|].
  unfold has_display_text at 1.
  destruct (find (has_class "toctext") (ref_node c)); simpl;
    rewrite IH; reflexivity.
Qed.

(** The title that the loop takes from one entry is the one that the
    specification words. *)
Lemma section_title_spec (entry : tagref) :
  match find (has_class "toctext") (ref_node entry) with
  | Some display => [strip (text (ref_node display))]
  | None => []
  end
  = match filter (has_class "toctext") (below (ref_node entry)) with
    | display :: _ => [strip (display_text display)]
    | [] => []
    end.
Proof.
  rewrite <- find_all_below. unfold find.
  destruct (find_all (has_class "toctext") (ref_node entry)) as [|r l] eqn:E;
    [reflexivity|].
  simpl. assert (H : has_class "toctext" (ref_node r) = true).
  { apply (find_all_In _ (ref_node entry)). rewrite E. left. reflexivity. }
  destruct (ref_node r) as [s | nm cls a cs | c s]; try discriminate.
  rewrite text_display. reflexivity.
Qed.

Lemma fetch_solution_sections_spec soup :
  fetch_solution_sections soup = list_sections_spec soup.
Proof.
  unfold fetch_solution_sections, list_sections_spec.
  rewrite fold_add_section, <- find_all_below. simpl.
  induction (find_all (has_class "toclevel-1") soup) as [|entry l IH];
    [reflexivity|].
  simpl. rewrite section_title_spec, IH. reflexivity.
Qed.

(** C7. [fetch_solution_sections] returns what the specification words: for
    each node of class [toclevel-1] of the page, in document order, the
    trimmed display text of the first node of class [toctext] below it, an
    entry without one being skipped; on a page without any such entry it
    returns the empty list.  The order and the text are those of the tree
    itself: what the code finds with [find_all], [find] and [.text] is what
    the recursion on the tree gives, a comment inside the display text being
    left out. *)
Theorem fetch_solution_sections_titles :
  forall soup : node,
    fetch_solution_sections soup = list_sections_spec soup /\
    (filter (has_class "toclevel-1") (below soup) = [] ->
     fetch_solution_sections soup = []) /\
    Forall (fun title => strip title = title) (fetch_solution_sections soup).
Proof.
  intros soup. rewrite fetch_solution_sections_spec.
  split; [reflexivity|]. split.
  - intros H. unfold list_sections_spec. rewrite H. reflexivity.
  - unfold list_sections_spec. rewrite Forall_forall.
    intros title H. apply in_flat_map in H. destruct H as [entry [_ H]].
    destruct (filter (has_class "toctext") (below entry)) as [|d l];
      [contradiction|].
    destruct H as [<- | []]. apply strip_by_idempotent.
Qed.

(** On a table of contents with a comment in a display text, a nested entry
    of the second level and an entry without display text; and on a page
    without table of contents. *)
Lemma fetch_solution_sections_titles_witness :
  fetch_solution_sections page_toc_markup
  = [py "Solution 1"; py "Solution 2"]
  /\ fetch_solution_sections page_two_sections = [].
Proof.
  split.
  - rewrite (proj1 (fetch_solution_sections_titles page_toc_markup)).
    reflexivity.
  - apply (proj1 (proj2 (fetch_solution_sections_titles page_two_sections))).
    reflexivity.
Defined.

(** C8, as the claim states it, fails: a page with three [h2] headings and no
    table of contents has no section title, not two; a page with a table of
    contents and no heading has two section titles, not none. *)
Lemma fetch_solution_sections_ignores_headings :
  List.length (find_all (has_name "h2") page_two_sections) = 3%nat /\
  List.length (fetch_solution_sections page_two_sections) = 0%nat /\
  find_all (has_name "h2") page_toc_only = [] /\
  fetch_solution_sections page_toc_only = [py "Solution 1"; py "Solution 2"].
Proof. repeat split. Qed.

(** C8, amended. [fetch_solution_sections] returns one title for each node of
    class [toclevel-1] that has a node of class [toctext] below it, whatever
    the number of [h2] headings.  The heading excluded is excluded by
    [extract_solution_content]: when the main content container has one [h2]
    heading at least, the indices it serves are those from 0 to the number of
    [h2] headings of the container minus one, excluded; index [i] selects
    heading [i + 1], and any other index gives the empty list. *)
Theorem headings_minus_one_are_sections :
  forall (latex_to_text : pystr -> pystr) (soup : node),
    List.length (fetch_solution_sections soup)
    = List.length
        (filter has_display_text (find_all (has_class "toclevel-1") soup)) /\
    forall mw : tagref,
      find is_mw_parser_output soup = Some mw ->
      let headings := find_all (has_name "h2") (ref_node mw) in
      (1 <= List.length headings)%nat ->
      (exists h2_tags,
         section_anchors (ref_node mw) = Ok h2_tags /\
         List.length h2_tags = (List.length headings - 1)%nat) /\
      forall i : Z,
        ((0 <= i < Z.of_nat (List.length headings) - 1)%Z ->
         exists selected_h2,
           nth_error headings (S (Z.to_nat i)) = Some selected_h2 /\
           extract_solution_content latex_to_text soup i
           = Ok (walk_siblings latex_to_text (ref_next selected_h2) [])) /\
        (~ (0 <= i < Z.of_nat (List.length headings) - 1)%Z ->
         extract_solution_content latex_to_text soup i = Ok []).
Proof.
  intros conv soup. split; [apply fetch_solution_sections_length|].
  intros mw Hmw headings Hlen.
  destruct headings as [|first h2_tags] eqn:Hh; [simpl in Hlen; lia|].
  subst headings. split.
  - exists h2_tags. unfold section_anchors. rewrite Hh. split; [reflexivity|].
    simpl. lia.
  - intros i. rewrite (extract_with_anchors conv soup mw first h2_tags i Hmw Hh).
    simpl List.length. split.
    + intros Hi.
      replace ((0 <=? i)%Z && (i <? Z.of_nat (List.length h2_tags))%Z)
        with true.
      * simpl. destruct (nth_error h2_tags (Z.to_nat i)) as [sel|] eqn:Hn.
        -- exists sel. split; reflexivity.
        -- apply nth_error_None in Hn. lia.
      * symmetry. apply andb_true_iff. split.
        -- apply Z.leb_le. lia.
        -- apply Z.ltb_lt. lia.
    + intros Hi.
      replace ((0 <=? i)%Z && (i <? Z.of_nat (List.length h2_tags))%Z)
        with false; [reflexivity|].
      symmetry. apply andb_false_iff.
      destruct (Z.leb_spec 0 i) as [H0|H0]; [right | left; reflexivity].
      apply Z.ltb_ge. lia.
Qed.

(** On a page with three headings: index 1 is the last section, index 2 is
    out of range. *)
Lemma headings_minus_one_are_sections_witness :
  extract_solution_content plain_converter page_two_sections 1
  = Ok [py "By symmetry."; newline] /\
  extract_solution_content plain_converter page_two_sections 2 = Ok [].
Proof.
  destruct (headings_minus_one_are_sections plain_converter page_two_sections)
    as [_ H].
  specialize (H _ eq_refl). simpl in H.
  destruct H as [_ H]; [lia|]. split.
  - destruct (H 1%Z) as [[sel [Hsel E]] _]; [lia|].
    rewrite E. injection Hsel as <-. reflexivity.
  - apply (proj2 (H 2%Z)). lia.
Defined.

(** ** The calls and the store *)

Lemma nth_app_length {A} (l : list A) (x d : A) :
  nth (List.length l) (l ++ [x]) d = x.
Proof.
  rewrite app_nth2, Nat.sub_diag; [reflexivity | lia].
Qed.

Lemma update_app_length {A} (l : list A) (x y : A) :
  update (List.length l) y (l ++ [x]) = l ++ [y].
Proof.
  induction l as [|a r IH]; simpl; [reflexivity|].
  rewrite IH. reflexivity.
Qed.

(** The call with the store returns what the function on the page returns,
    and changes the lists of the store only. *)
Lemma extract_solution_content_st_run latex_to_text i w :
  exists lists,
    extract_solution_content_st latex_to_text i w
    = (extract_solution_content latex_to_text (w_page w) i,
       mkworld (w_page w) lists).
Proof.
  destruct w as [page lists].
  unfold extract_solution_content_st, extract_solution_content, bind,
    the_page, section_anchors. simpl.
  destruct (find is_mw_parser_output page) as [mw|];
    [|exists lists; reflexivity].
  destruct (truthy (ref_node mw)); simpl; [|exists lists; reflexivity].
  unfold pop0, find_all_st. simpl. rewrite nth_app_length.
  destruct (find_all (has_name "h2") (ref_node mw)) as [|first h2_tags].
  - eexists. reflexivity.
  - unfold len. simpl. rewrite update_app_length, nth_app_length.
    destruct ((0 <=? i)%Z && (i <? Z.of_nat (List.length h2_tags))%Z); simpl.
    + unfold getitem. simpl. rewrite nth_app_length.
      destruct (nth_error h2_tags (Z.to_nat i)); eexists; reflexivity.
    + eexists. reflexivity.
Qed.

Lemma same_twice_of_run {A} (call : M A) (f : node -> result A) :
  (forall w, exists lists, call w = (f (w_page w), mkworld (w_page w) lists)) ->
  forall w, same_twice call w.
Proof.
  intros H w. unfold same_twice.
  destruct (H w) as [l1 E1]. rewrite E1. simpl.
  destruct (H (mkworld (w_page w) l1)) as [l2 E2]. rewrite E2. simpl.
  repeat split.
Qed.

(** C9. Each of the three extractors, called twice in succession on the same
    page, gives the same result both times, and leaves the page as it was:
    what [extract_solution_content] changes with [pop(0)] is the list that
    [find_all] has built for the call, not the page.  The result of a call is
    the result of the function of the page alone. *)
Theorem extractors_same_twice :
  forall (latex_to_text : pystr -> pystr) (url : string)
         (section_index : Z) (w : world),
    same_twice (scrape_answers_st url) w /\
    same_twice fetch_solution_sections_st w /\
    same_twice (extract_solution_content_st latex_to_text section_index) w /\
    fst (scrape_answers_st url w)
    = Ok (snd (scrape_answers url (Fetched (w_page w)))) /\
    fst (fetch_solution_sections_st w)
    = Ok (fetch_solution_sections (w_page w)) /\
    fst (extract_solution_content_st latex_to_text section_index w)
    = extract_solution_content latex_to_text (w_page w) section_index.
Proof.
  intros conv url i w.
  split; [|split; [|split; [|split; [|split]]]].
  - apply (same_twice_of_run _
             (fun page => Ok (snd (scrape_answers url (Fetched page))))).
    intros [page lists]. exists lists. reflexivity.
  - apply (same_twice_of_run _
             (fun page => Ok (fetch_solution_sections page))).
    intros [page lists]. exists lists. reflexivity.
  - apply (same_twice_of_run _
             (fun page => extract_solution_content conv page i)).
    apply extract_solution_content_st_run.
  - reflexivity.
  - reflexivity.
  - destruct (extract_solution_content_st_run conv i w) as [lists E].
    rewrite E. reflexivity.
Qed.

(** ** Strings of the command line *)

Lemma pystr_eqb_eq a : forall b, pystr_eqb a b = true <-> a = b.
Proof.
  induction a as [|x a' IH]; intros [|y b']; simpl; split;
    try discriminate; try reflexivity.
  - intros H. apply andb_true_iff in H. destruct H as [Hx Hr].
    apply N.eqb_eq in Hx. apply IH in Hr. subst. reflexivity.
  - intros [= -> ->]. rewrite N.eqb_refl. apply IH. reflexivity.
Qed.

Lemma pystr_in_In x l : pystr_in x l = true <-> In x l.
Proof.
  unfold pystr_in. rewrite existsb_exists. split.
  - intros [y [Hy E]]. apply pystr_eqb_eq in E. subst. exact Hy.
  - intros H. exists x. split; [exact H | apply pystr_eqb_eq; reflexivity].
Qed.

Lemma py_injective a : forall b, py a = py b -> a = b.
Proof.
  unfold py. induction a as [|c a' IH]; intros [|d b']; simpl;
    try discriminate; try reflexivity.
  intros [= Hc Hr]. f_equal.
  - rewrite <- (ascii_N_embedding c), <- (ascii_N_embedding d), Hc.
    reflexivity.
  - apply IH. exact Hr.
Qed.

Lemma py_app a b : py (a ++ b)%string = py a ++ py b.
Proof.
  unfold py. induction a as [|c a' IH]; simpl; [reflexivity|].
  rewrite IH. reflexivity.
Qed.

Lemma uint_digits d :
  forallb is_digit (py (DecimalString.NilEmpty.string_of_uint d)) = true.
Proof. induction d; simpl; try reflexivity; exact IHd. Qed.

(** The text of an [int] that is not negative is made of digits. *)
Lemma str_of_int_digits z :
  (0 <= z)%Z -> forallb is_digit (str_of_int z) = true.
Proof.
  unfold str_of_int. destruct z as [|p|p]; intros H; [reflexivity | | lia].
  simpl. unfold DecimalString.NilZero.string_of_uint.
  destruct (Pos.to_uint p); try reflexivity; apply uint_digits.
Qed.

Lemma to_int_not_nil z :
  Z.to_int z <> Decimal.Pos Decimal.Nil /\
  Z.to_int z <> Decimal.Neg Decimal.Nil.
Proof.
  split; intros H; pose proof (f_equal Z.of_int H) as E;
    rewrite DecimalZ.of_to in E; simpl in E; subst z; discriminate H.
Qed.

(** Two [int]s with the same text are equal. *)
Lemma str_of_int_injective z1 z2 : str_of_int z1 = str_of_int z2 -> z1 = z2.
Proof.
  unfold str_of_int. intros H. apply py_injective in H.
  apply (f_equal DecimalString.NilZero.int_of_string) in H.
  destruct (to_int_not_nil z1) as [P1 N1].
  destruct (to_int_not_nil z2) as [P2 N2].
  rewrite !DecimalString.NilZero.isi in H by assumption.
  injection H as H. apply (f_equal Z.of_int) in H.
  rewrite !DecimalZ.of_to in H. exact H.
Qed.

(** Before its first occurrence of [c], a string is determined. *)
Lemma split_at_first (c : N) (a : pystr) : forall b x y,
  forallb (fun d => negb (N.eqb d c)) a = true ->
  forallb (fun d => negb (N.eqb d c)) b = true ->
  a ++ c :: x = b ++ c :: y -> a = b /\ x = y.
Proof.
  induction a as [|d a' IH]; intros [|e b'] x y Ha Hb; simpl in *.
  - intros [= ->]. split; reflexivity.
  - intros [= <- _]. rewrite N.eqb_refl in Hb. discriminate.
  - intros [= -> _]. rewrite N.eqb_refl in Ha. discriminate.
  - intros [= -> H]. apply andb_true_iff in Ha, Hb.
    destruct (IH b' x y (proj2 Ha) (proj2 Hb) H) as [-> ->].
    split; reflexivity.
Qed.

Lemma digits_without (c : N) (s : pystr) :
  is_digit c = false ->
  forallb is_digit s = true ->
  forallb (fun d => negb (N.eqb d c)) s = true.
Proof.
  intros Hc. induction s as [|d r IH]; simpl; [reflexivity|].
  intros H. apply andb_true_iff in H. destruct H as [Hd Hr].
  rewrite (IH Hr), andb_true_r.
  destruct (N.eqb_spec d c) as [->|]; [congruence | reflexivity].
Qed.

(** A scan that meets no first character of [old] copies. *)
Lemma replace_from_copies (o : N) (old new a : pystr) : forall s,
  forallb (fun d => negb (N.eqb d o)) a = true ->
  replace_from (o :: old) new O (a ++ s)
  = a ++ replace_from (o :: old) new O s.
Proof.
  induction a as [|d a' IH]; intros s Ha; simpl in *; [reflexivity|].
  apply andb_true_iff in Ha. destruct Ha as [Hd Hr].
  apply negb_true_iff in Hd. rewrite Hd. simpl.
  rewrite (IH s Hr). reflexivity.
Qed.

(** ** [construct_url] *)

Lemma named_test_type t :
  pystr_in t [py "AIME"; py "AIME_I"; py "AIME_II"; py "AJHSME"; py "AHSME"]
  = true ->
  t = py "AIME" \/ t = py "AIME_I" \/ t = py "AIME_II" \/ t = py "AJHSME"
  \/ t = py "AHSME".
Proof.
  intros H. apply pystr_in_In in H. simpl in H.
  destruct H as [H|[H|[H|[H|[H|[]]]]]]; subst; auto 6.
Qed.

Lemma construct_url_table year t config :
  In (t, config) TEST_AVAILABILITY ->
  construct_url year t
  = base_url ++ py "/" ++ year ++ py "_" ++ url_format config
    ++ py "_Answer_Key".
Proof.
  intros H. simpl in H.
  repeat (destruct H as [H|H]; [injection H as <- <-; reflexivity|]).
  destruct H.
Qed.

Lemma construct_url_digits_injective year1 year2 t1 t2 :
  forallb is_digit year1 = true -> forallb is_digit year2 = true ->
  construct_url year1 t1 = construct_url year2 t2 ->
  year1 = year2 /\ t1 = t2.
Proof.
  intros D1 D2 H.
  assert (U : is_digit 95 = false) by reflexivity.
  pose proof (digits_without 95 year1 U D1) as W1.
  pose proof (digits_without 95 year2 U D2) as W2.
  unfold construct_url in H.
  destruct (pystr_in t1 _) eqn:N1; destruct (pystr_in t2 _) eqn:N2;
    apply app_inv_head in H;
    change (py "/" ++ ?y ++ ?r) with (47%N :: y ++ r) in H;
    injection H as H.
  - change (py "_" ++ ?r) with (95%N :: r) in H.
    destruct (split_at_first 95 _ _ _ _ W1 W2 H) as [-> E].
    apply app_inv_tail in E. split; [reflexivity | exact E].
  - change (py "_" ++ ?r) with (95%N :: r) in H.
    change (py "_AMC_" ++ ?r) with (95%N :: py "AMC_" ++ r) in H.
    destruct (split_at_first 95 _ _ _ _ W1 W2 H) as [-> E].
    destruct (named_test_type t1 N1) as [T|[T|[T|[T|T]]]];
      rewrite T in E; simpl in E; discriminate.
  - change (py "_" ++ ?r) with (95%N :: r) in H.
    change (py "_AMC_" ++ ?r) with (95%N :: py "AMC_" ++ r) in H.
    destruct (split_at_first 95 _ _ _ _ W1 W2 H) as [-> E].
    destruct (named_test_type t2 N2) as [T|[T|[T|[T|T]]]];
      rewrite T in E; simpl in E; discriminate.
  - change (py "_AMC_" ++ ?r) with (95%N :: py "AMC_" ++ r) in H.
    destruct (split_at_first 95 _ _ _ _ W1 W2 H) as [-> E].
    injection E as E. apply app_inv_tail in E.
    split; [reflexivity | exact E].
Qed.

(** X1. Two answer-key addresses built from years that are not negative are
    equal only for the same year and the same test type: the address tells
    the test. *)
Theorem construct_url_injective :
  forall (year1 year2 : Z) (test_type1 test_type2 : pystr),
    (0 <= year1)%Z -> (0 <= year2)%Z ->
    construct_url (str_of_int year1) test_type1
    = construct_url (str_of_int year2) test_type2 ->
    year1 = year2 /\ test_type1 = test_type2.
Proof.
  intros y1 y2 t1 t2 H1 H2 H.
  destruct (construct_url_digits_injective _ _ t1 t2
              (str_of_int_digits y1 H1) (str_of_int_digits y2 H2) H)
    as [Hy Ht].
  split; [apply str_of_int_injective, Hy | exact Ht].
Qed.

(** The same address, the same test. *)
Lemma construct_url_injective_witness :
  2002%Z = 2002%Z /\ py "10A" = py "10A".
Proof.
  apply (construct_url_injective 2002 2002 (py "10A") (py "10A"));
    [lia | lia | reflexivity].
Defined.

(** X2. For every key of [TEST_AVAILABILITY], the address that
    [construct_url] builds has the [url_format] of the entry between the year
    and [_Answer_Key], although the function does not read that field. *)
Theorem construct_url_follows_url_format :
  forall (year test_type : pystr) (config : test_config),
    In (test_type, config) TEST_AVAILABILITY ->
    construct_url year test_type
    = base_url ++ py "/" ++ year ++ py "_" ++ url_format config
      ++ py "_Answer_Key".
Proof.
  intros year t config H. simpl in H.
  repeat (destruct H as [H|H]; [injection H as <- <-; reflexivity|]).
  destruct H.
Qed.

(** The address of the AMC 10A of 2002. *)
Lemma construct_url_follows_url_format_witness :
  construct_url (py "2002") (py "10A")
  = py "https://artofproblemsolving.com/wiki/index.php/2002_AMC_10A_Answer_Key".
Proof.
  rewrite (construct_url_follows_url_format (py "2002") (py "10A")
             (mkconfig 2002 None (py "AMC 10A") (py "AMC_10A"))).
  - reflexivity.
  - simpl. tauto.
Defined.

(** X3. For a year that is not negative and a key of [TEST_AVAILABILITY],
    the page of problem [question] that [find_solutions] asks for is the
    answer-key address with [_Answer_Key] replaced once, by [_Problems], and
    followed by [/Problem_] and the number. *)
Theorem problem_url_of_answer_key :
  forall (year question : Z) (test_type : pystr) (config : test_config),
    (0 <= year)%Z ->
    In (test_type, config) TEST_AVAILABILITY ->
    problem_url (construct_url (str_of_int year) test_type) question
    = base_url ++ py "/" ++ str_of_int year ++ py "_" ++ url_format config
      ++ py "_Problems/Problem_" ++ str_of_int question.
Proof.
  intros y q t config Hy Hin.
  rewrite (construct_url_table _ t config Hin).
  unfold problem_url, replace.
  change (py "_Answer_Key") with (95%N :: py "Answer_Key").
  rewrite (app_assoc base_url), (app_assoc (base_url ++ py "/")).
  rewrite replace_from_copies.
  - rewrite <- !app_assoc. do 3 f_equal.
    simpl in Hin.
    repeat (destruct Hin as [Hin|Hin];
            [injection Hin as <- <-; reflexivity|]).
    destruct Hin.
  - rewrite !forallb_app. apply andb_true_iff. split; [reflexivity|].
    apply digits_without; [reflexivity | apply str_of_int_digits, Hy].
Qed.

(** The page of problem 7 of the AMC 10A of 2002. *)
Lemma problem_url_of_answer_key_witness :
  problem_url (construct_url (str_of_int 2002) (py "10A")) 7
  = py "https://artofproblemsolving.com/wiki/index.php/2002_AMC_10A_Problems/Problem_7".
Proof.
  rewrite (problem_url_of_answer_key 2002 7 (py "10A")
             (mkconfig 2002 None (py "AMC 10A") (py "AMC_10A"))).
  - reflexivity.
  - lia.
  - simpl. tauto.
Defined.

(** ** [TEST_AVAILABILITY] *)

Lemma valid_tests_flat_map year :
  valid_tests year
  = flat_map
      (fun entry =>
         if available year (snd entry) then [fst entry] else [])
      TEST_AVAILABILITY.
Proof.
  unfold valid_tests, valid_entries.
  induction TEST_AVAILABILITY as [|entry table IH]; simpl; [reflexivity|].
  destruct (available year (snd entry)); simpl; rewrite IH; reflexivity.
Qed.

(** Under bounds on the year that settle every comparison of the table. *)
Ltac settle_comparisons :=
  repeat match goal with
         | |- context [(?a <=? ?b)%Z] =>
             let E := fresh "E" in
             first
               [ assert (E : (a <=? b)%Z = true) by (apply Z.leb_le; lia)
               | assert (E : (a <=? b)%Z = false) by (apply Z.leb_gt; lia) ];
             rewrite E; clear E
         end.

Ltac by_year :=
  rewrite valid_tests_flat_map;
  unfold TEST_AVAILABILITY, available;
  cbn [flat_map fst snd start_year end_year];
  settle_comparisons.

(** X4. The test types offered for a year: none before 1950; AHSME alone
    until 1982; with AIME from 1983 and AJHSME from 1985, until 1998; the
    AMC 8 and AIME in 1999; the AMC 8, 10 and 12 and the two AIME in 2000 and
    2001; the A and B tests in place of the AMC 10 and 12 from 2002 on. *)
Theorem valid_tests_by_year :
  forall year : Z,
    ((year < 1950)%Z -> valid_tests year = []) /\
    ((1950 <= year <= 1982)%Z -> valid_tests year = [py "AHSME"]) /\
    ((1983 <= year <= 1984)%Z ->
     valid_tests year = [py "AHSME"; py "AIME"]) /\
    ((1985 <= year <= 1998)%Z ->
     valid_tests year = [py "AJHSME"; py "AHSME"; py "AIME"]) /\
    (year = 1999%Z -> valid_tests year = [py "8"; py "AIME"]) /\
    ((2000 <= year <= 2001)%Z ->
     valid_tests year
     = [py "8"; py "10"; py "12"; py "AIME_I"; py "AIME_II"]) /\
    ((2002 <= year)%Z ->
     valid_tests year
     = [py "8"; py "10A"; py "10B"; py "12A"; py "12B"; py "AIME_I";
        py "AIME_II"]).
Proof.
  intros y. repeat split; intros H; by_year; reflexivity.
Qed.

(** The years 1949, 1999 and 2024. *)
Lemma valid_tests_by_year_witness :
  valid_tests 1949 = [] /\ valid_tests 1999 = [py "8"; py "AIME"] /\
  valid_tests 2024
  = [py "8"; py "10A"; py "10B"; py "12A"; py "12B"; py "AIME_I";
     py "AIME_II"].
Proof.
  destruct (valid_tests_by_year 1949) as [H1 _].
  destruct (valid_tests_by_year 1999) as [_ [_ [_ [_ [H2 _]]]]].
  destruct (valid_tests_by_year 2024) as [_ [_ [_ [_ [_ [_ H3]]]]]].
  split; [apply H1; lia | split; [apply H2; lia | apply H3; lia]].
Defined.

Lemma valid_tests_from_1950 year :
  valid_tests year <> [] -> (1950 <= year)%Z.
Proof.
  intros H. destruct (Z.le_gt_cases 1950 year) as [Hy|Hy]; [exact Hy|].
  exfalso. apply H. by_year. reflexivity.
Qed.

Lemma valid_tests_entry year t :
  In t (valid_tests year) ->
  exists config,
    In (t, config) TEST_AVAILABILITY /\
    (start_year config <= year)%Z /\
    match end_year config with
    | Some last => (year <= last)%Z
    | None => True
    end.
Proof.
  unfold valid_tests, valid_entries. intros H.
  apply in_map_iff in H. destruct H as [[t' config] [E H]].
  simpl in E. subst t'. apply filter_In in H. destruct H as [Hin Hav].
  exists config. split; [exact Hin|].
  unfold available in Hav. simpl in Hav.
  apply andb_true_iff in Hav. destruct Hav as [Hs He]. split.
  - apply Z.leb_le, Hs.
  - destruct (end_year config); [apply Z.leb_le, He | exact I].
Qed.

(** ** [get_valid_int] *)

Lemma accepted_range (int : pystr -> option Z) (min_val max_val : Z)
  (allow_zero : bool) (k : keyboard) (v : Z) :
  accepts int min_val max_val allow_zero k = Some v ->
  (allow_zero = true /\ v = 0%Z) \/ (min_val <= v <= max_val)%Z.
Proof.
  unfold accepts. destruct k as [l|e]; [|discriminate].
  destruct (allow_zero && pystr_eqb (strip l) (py "0")) eqn:Ez.
  - intros [= <-]. left. apply andb_true_iff in Ez. tauto.
  - destruct (int (strip l)) as [value|]; [|discriminate].
    destruct (value <? min_val)%Z eqn:E1; [discriminate|].
    destruct (value >? max_val)%Z eqn:E2; [discriminate|].
    simpl. intros [= <-]. right.
    apply Z.ltb_ge in E1. rewrite Z.gtb_ltb in E2. apply Z.ltb_ge in E2.
    lia.
Qed.

Section GetValidInt.

Variable int : pystr -> option Z.
Variables (prompt_text : pystr) (min_val max_val : Z).
Variables (min_msg max_msg : option pystr) (allow_zero : bool).

Lemma get_valid_int_accept k rest v :
  accepts int min_val max_val allow_zero k = Some v ->
  get_valid_int int prompt_text min_val max_val min_msg max_msg allow_zero
    (k :: rest)
  = ([prompt_text_written prompt_text], Returned v rest).
Proof.
  unfold accepts. destruct k as [l|e]; [|discriminate].
  simpl.
  destruct (allow_zero && pystr_eqb (strip l) (py "0")).
  - intros [= <-]. reflexivity.
  - destruct (int (strip l)) as [value|]; [|discriminate].
    destruct (value <? min_val)%Z; [discriminate|].
    destruct (value >? max_val)%Z; [discriminate|].
    simpl. intros [= <-]. reflexivity.
Qed.

Lemma get_valid_int_again k rest :
  asks_again int min_val max_val allow_zero k = true ->
  exists msg,
    get_valid_int int prompt_text min_val max_val min_msg max_msg allow_zero
      (k :: rest)
    = after [prompt_text_written prompt_text; print_error msg]
        (get_valid_int int prompt_text min_val max_val min_msg max_msg
           allow_zero rest).
Proof.
  unfold asks_again, accepts.
  destruct k as [l|e].
  - simpl. destruct (allow_zero && pystr_eqb (strip l) (py "0"));
      [discriminate|].
    destruct (int (strip l)) as [value|]; [|eexists; reflexivity].
    destruct (value <? min_val)%Z; [eexists; reflexivity|].
    destruct (value >? max_val)%Z; [eexists; reflexivity | discriminate].
  - destruct e; try discriminate. intros _. eexists. reflexivity.
Qed.

Lemma get_valid_int_raise e rest :
  e <> ValueError ->
  get_valid_int int prompt_text min_val max_val min_msg max_msg allow_zero
    (Fails e :: rest)
  = ([prompt_text_written prompt_text], Raised e rest).
Proof. destruct e; try reflexivity. contradiction. Qed.

(** An event is accepted, or the call asks again, or the event raises. *)
Lemma keyboard_cases k :
  (exists v, accepts int min_val max_val allow_zero k = Some v) \/
  asks_again int min_val max_val allow_zero k = true \/
  (exists e, k = Fails e /\ e <> ValueError).
Proof.
  unfold asks_again. destruct k as [l|e].
  - destruct (accepts int min_val max_val allow_zero (Line l)) as [v|].
    + left. exists v. reflexivity.
    + right. left. reflexivity.
  - right. destruct e; try (right; eexists; split; [reflexivity|discriminate]).
    left. reflexivity.
Qed.

(** A call that ends has taken the events up to the one that ended it. *)
Lemma get_valid_int_ends keys :
  match
    snd (get_valid_int int prompt_text min_val max_val min_msg max_msg
           allow_zero keys)
  with
  | Returned v rest =>
      exists before k,
        keys = before ++ k :: rest /\
        forallb (asks_again int min_val max_val allow_zero) before = true /\
        accepts int min_val max_val allow_zero k = Some v
  | Raised e rest =>
      exists before,
        keys = before ++ Fails e :: rest /\
        forallb (asks_again int min_val max_val allow_zero) before = true /\
        e <> ValueError
  | Waiting =>
      forallb (asks_again int min_val max_val allow_zero) keys = true
  end.
Proof.
  induction keys as [|k keys' IH]; [reflexivity|].
  destruct (keyboard_cases k) as [[v Hv] | [Ha | [e [-> He]]]].
  - rewrite (get_valid_int_accept k keys' v Hv). simpl.
    exists [], k. repeat split. exact Hv.
  - destruct (get_valid_int_again k keys' Ha) as [msg ->]. simpl.
    destruct
      (snd (get_valid_int int prompt_text min_val max_val min_msg max_msg
              allow_zero keys')) as [v rest | e rest |].
    + destruct IH as [before [k' [-> [Hb Hk]]]].
      exists (k :: before), k'. simpl. rewrite Ha, Hb. repeat split.
      exact Hk.
    + destruct IH as [before [-> [Hb He]]].
      exists (k :: before). simpl. rewrite Ha, Hb. repeat split. exact He.
    + simpl. rewrite Ha, IH. reflexivity.
  - rewrite (get_valid_int_raise e keys' He). simpl.
    exists []. repeat split. exact He.
Qed.

Lemma get_valid_int_run before : forall tail,
  forallb (asks_again int min_val max_val allow_zero) before = true ->
  snd (get_valid_int int prompt_text min_val max_val min_msg max_msg
         allow_zero (before ++ tail))
  = snd (get_valid_int int prompt_text min_val max_val min_msg max_msg
           allow_zero tail) /\
  List.length
    (fst (get_valid_int int prompt_text min_val max_val min_msg max_msg
            allow_zero (before ++ tail)))
  = (2 * List.length before
     + List.length
         (fst (get_valid_int int prompt_text min_val max_val min_msg max_msg
                 allow_zero tail)))%nat.
Proof.
  induction before as [|k before' IH]; intros tail Hb.
  - split; reflexivity.
  - simpl in Hb. apply andb_true_iff in Hb. destruct Hb as [Hk Hb].
    change ((k :: before') ++ tail) with (k :: before' ++ tail).
    destruct (get_valid_int_again k (before' ++ tail) Hk) as [msg ->].
    destruct (IH tail Hb) as [E1 E2]. simpl. split; [exact E1|].
    rewrite E2. lia.
Qed.

End GetValidInt.

(** X5. What [get_valid_int] returns is within the bounds, or is the 0 that
    it gives back for the line "0" when [allow_zero] is set, also when 0 is
    out of the bounds. *)
Theorem get_valid_int_range :
  forall (int : pystr -> option Z) (prompt_text : pystr)
         (min_val max_val : Z) (min_msg max_msg : option pystr)
         (allow_zero : bool) (keys rest : list keyboard) (v : Z),
    snd (get_valid_int int prompt_text min_val max_val min_msg max_msg
           allow_zero keys) = Returned v rest ->
    (allow_zero = true /\ v = 0%Z) \/ (min_val <= v <= max_val)%Z.
Proof.
  intros int p lo hi m1 m2 z keys rest v H.
  pose proof (get_valid_int_ends int p lo hi m1 m2 z keys) as E.
  rewrite H in E. destruct E as [before [k [_ [_ Hk]]]].
  apply (accepted_range int lo hi z k v Hk).
Qed.

(** A question number between 1 and 25: "abc" and 30 are refused, 7 is
    returned. *)
Lemma get_valid_int_range_witness :
  (true = true /\ 7%Z = 0%Z) \/ (1 <= 7 <= 25)%Z.
Proof.
  apply (get_valid_int_range decimal_int (py "? ") 1 25 None None true
           [Line (py "abc"); Line (py " 30 "); Line (py " 7 ");
            Line (py "9")]
           [Line (py "9")] 7).
  reflexivity.
Defined.

(** X6. [get_valid_int] returns the value of the first event that it
    accepts, leaving the events after it, when every event before is one
    after which it asks again (a line that is not a number, a number out of
    the bounds, a [ValueError] of [input()]); it has then written the prompt
    once for each event taken and one error for each event before. *)
Theorem get_valid_int_first_accepted :
  forall (int : pystr -> option Z) (prompt_text : pystr)
         (min_val max_val : Z) (min_msg max_msg : option pystr)
         (allow_zero : bool) (before : list keyboard) (k : keyboard)
         (rest : list keyboard) (v : Z),
    forallb (asks_again int min_val max_val allow_zero) before = true ->
    accepts int min_val max_val allow_zero k = Some v ->
    let r := get_valid_int int prompt_text min_val max_val min_msg max_msg
               allow_zero (before ++ k :: rest) in
    snd r = Returned v rest /\
    List.length (fst r) = (2 * List.length before + 1)%nat.
Proof.
  intros int p lo hi m1 m2 z before k rest v Hb Hk r. subst r.
  destruct (get_valid_int_run int p lo hi m1 m2 z before (k :: rest) Hb)
    as [E1 E2].
  rewrite E1, E2, (get_valid_int_accept int p lo hi m1 m2 z k rest v Hk).
  split; reflexivity.
Qed.

(** Two refused lines, then 7. *)
Lemma get_valid_int_first_accepted_witness :
  snd (get_valid_int decimal_int (py "? ") 1 25 None None true
         ([Line (py "abc"); Line (py " 30 ")] ++ Line (py " 7 ")
          :: [Line (py "9")]))
  = Returned 7%Z [Line (py "9")].
Proof.
  apply (get_valid_int_first_accepted decimal_int (py "? ") 1 25 None None
           true [Line (py "abc"); Line (py " 30 ")] (Line (py " 7 "))
           [Line (py "9")] 7);
    reflexivity.
Defined.

(** X7. An exception of [input()] other than [ValueError] goes through
    [get_valid_int] as it is, after the events that are asked again; and a
    call that has only such events to read is still waiting for input: it
    never gives up by itself. *)
Theorem get_valid_int_raises_or_waits :
  forall (int : pystr -> option Z) (prompt_text : pystr)
         (min_val max_val : Z) (min_msg max_msg : option pystr)
         (allow_zero : bool) (before rest : list keyboard) (e : pyexn),
    forallb (asks_again int min_val max_val allow_zero) before = true ->
    snd (get_valid_int int prompt_text min_val max_val min_msg max_msg
           allow_zero before) = Waiting /\
    (e <> ValueError ->
     snd (get_valid_int int prompt_text min_val max_val min_msg max_msg
            allow_zero (before ++ Fails e :: rest)) = Raised e rest).
Proof.
  intros int p lo hi m1 m2 z before rest e Hb. split.
  - destruct (get_valid_int_run int p lo hi m1 m2 z before [] Hb) as [E _].
    rewrite app_nil_r in E. rewrite E. reflexivity.
  - intros He.
    destruct (get_valid_int_run int p lo hi m1 m2 z before
                (Fails e :: rest) Hb) as [E _].
    rewrite E, (get_valid_int_raise int p lo hi m1 m2 z e rest He).
    reflexivity.
Qed.

(** A year out of the bounds, then Ctrl-C. *)
Lemma get_valid_int_raises_or_waits_witness :
  snd (get_valid_int decimal_int (py "? ") 1950 2026 None None false
         [Line (py "1900")]) = Waiting /\
  snd (get_valid_int decimal_int (py "? ") 1950 2026 None None false
         ([Line (py "1900")] ++ Fails KeyboardInterrupt :: []))
  = Raised KeyboardInterrupt [].
Proof.
  destruct (get_valid_int_raises_or_waits decimal_int (py "? ") 1950 2026
              None None false [Line (py "1900")] [] KeyboardInterrupt
              eq_refl) as [H1 H2].
  split; [exact H1 | apply H2; discriminate].
Defined.

(** ** [get_valid_test_type] *)

Section AskTestType.

Variable upper : pystr -> pystr.
Variables (year : pystr) (valid : list pystr).

Lemma ask_test_type_refused k rest :
  refused_type upper valid k = true ->
  exists msg,
    ask_test_type upper year valid (k :: rest)
    = after
        [prompt_text_written ([128292%N] ++ py " Enter the test type: ");
         print_error msg]
        (ask_test_type upper year valid rest).
Proof.
  destruct k as [l|e]; [|discriminate]. simpl.
  destruct (nonempty (upper (strip l))); simpl.
  - intros H. apply negb_true_iff in H. rewrite H. eexists. reflexivity.
  - intros _. eexists. reflexivity.
Qed.

(** A call that ends has taken the events up to the one that ended it. *)
Lemma ask_test_type_ends keys :
  match snd (ask_test_type upper year valid keys) with
  | Returned t rest =>
      exists before l,
        keys = before ++ Line l :: rest /\
        forallb (refused_type upper valid) before = true /\
        t = upper (strip l) /\ In t valid
  | Raised e rest =>
      exists before,
        keys = before ++ Fails e :: rest /\
        forallb (refused_type upper valid) before = true
  | Waiting => forallb (refused_type upper valid) keys = true
  end.
Proof.
  induction keys as [|k keys' IH]; [reflexivity|].
  destruct (refused_type upper valid k) eqn:Hk.
  - destruct (ask_test_type_refused k keys' Hk) as [msg ->]. simpl.
    destruct (snd (ask_test_type upper year valid keys'))
      as [t rest | e rest |].
    + destruct IH as [before [l [-> [Hb Ht]]]].
      exists (k :: before), l. simpl. rewrite Hk, Hb. repeat split; apply Ht.
    + destruct IH as [before [-> Hb]].
      exists (k :: before). simpl. rewrite Hk, Hb. split; reflexivity.
    + simpl. rewrite Hk, IH. reflexivity.
  - destruct k as [l|e]; simpl in *.
    + apply orb_false_iff in Hk. destruct Hk as [H1 H2].
      apply negb_false_iff in H1, H2. rewrite H1, H2. simpl.
      exists [], l. repeat split. apply pystr_in_In, H2.
    + exists []. split; reflexivity.
Qed.

Lemma ask_test_type_run before : forall tail,
  forallb (refused_type upper valid) before = true ->
  snd (ask_test_type upper year valid (before ++ tail))
  = snd (ask_test_type upper year valid tail).
Proof.
  induction before as [|k before' IH]; intros tail Hb; [reflexivity|].
  simpl in Hb. apply andb_true_iff in Hb. destruct Hb as [Hk Hb].
  change ((k :: before') ++ tail) with (k :: before' ++ tail).
  destruct (ask_test_type_refused k (before' ++ tail) Hk) as [msg ->].
  simpl. apply IH, Hb.
Qed.

End AskTestType.

Lemma exit_on_interrupt_returned {A} (r : run A) a rest :
  snd (exit_on_interrupt r) = Returned a rest -> snd r = Returned a rest.
Proof.
  unfold exit_on_interrupt. destruct r as [w [x r' | e r' |]]; simpl;
    try (intros H; exact H).
  destruct e; simpl; intros H; try exact H. discriminate.
Qed.

Lemma exit_on_interrupt_raised {A} (r : run A) e rest :
  snd (exit_on_interrupt r) = Raised e rest -> e <> KeyboardInterrupt.
Proof.
  unfold exit_on_interrupt. destruct r as [w [x r' | e' r' |]]; simpl;
    try discriminate.
  destruct e'; simpl; intros [= <- _]; discriminate.
Qed.

(** X8. The test type that [get_valid_test_type] returns is the upper-cased,
    trimmed text of the line that ended the call, and a key of
    [TEST_AVAILABILITY] whose years include the year asked, which is then
    1950 or later: for an earlier year no line is ever accepted. *)
Theorem get_valid_test_type_valid :
  forall (int : pystr -> option Z) (upper : pystr -> pystr) (year : pystr)
         (keys rest : list keyboard) (test_type : pystr),
    snd (get_valid_test_type int upper year keys) = Returned test_type rest ->
    exists (year_int : Z) (config : test_config) (before : list keyboard)
           (l : pystr),
      int year = Some year_int /\
      keys = before ++ Line l :: rest /\
      test_type = upper (strip l) /\
      In (test_type, config) TEST_AVAILABILITY /\
      (start_year config <= year_int)%Z /\
      match end_year config with
      | Some last => (year_int <= last)%Z
      | None => True
      end /\
      (1950 <= year_int)%Z.
Proof.
  intros int upper year keys rest t H.
  unfold get_valid_test_type in H.
  destruct (int year) as [y|]; [|discriminate].
  apply exit_on_interrupt_returned in H. simpl in H.
  pose proof (ask_test_type_ends upper year (valid_tests y) keys) as E.
  rewrite H in E. destruct E as [before [l [-> [_ [-> Hin]]]]].
  destruct (valid_tests_entry y _ Hin) as [config [Ht [Hs He]]].
  exists y, config, before, l. repeat split; try assumption.
  apply valid_tests_from_1950. intros Hnil. rewrite Hnil in Hin.
  destruct Hin.
Qed.

(** For 2001: an empty line and "10a" are refused, " aime_i " is taken. *)
Lemma get_valid_test_type_valid_witness :
  exists (year_int : Z) (config : test_config),
    decimal_int (py "2001") = Some year_int /\
    In (py "AIME_I", config) TEST_AVAILABILITY /\
    (start_year config <= year_int)%Z.
Proof.
  destruct (get_valid_test_type_valid decimal_int ascii_upper (py "2001")
              [Line []; Line (py "10a"); Line (py " aime_i ");
               Line (py "x")]
              [Line (py "x")] (py "AIME_I") eq_refl)
    as [y [config [_ [_ [Hy [_ [_ [Hin [Hs _]]]]]]]]].
  exists y, config. repeat split; assumption.
Defined.

(** X9. [get_valid_test_type] never lets a [KeyboardInterrupt] out: an
    interrupt at the prompt, after any lines that were refused, ends the
    call with [SystemExit(0)]. *)
Theorem get_valid_test_type_interrupt :
  forall (int : pystr -> option Z) (upper : pystr -> pystr) (year : pystr)
         (year_int : Z),
    int year = Some year_int ->
    (forall keys e rest,
       snd (get_valid_test_type int upper year keys) = Raised e rest ->
       e <> KeyboardInterrupt) /\
    (forall before rest,
       forallb (refused_type upper (valid_tests year_int)) before = true ->
       snd (get_valid_test_type int upper year
              (before ++ Fails KeyboardInterrupt :: rest))
       = Raised (SystemExit 0) rest).
Proof.
  intros int upper year y Hy. unfold get_valid_test_type. rewrite Hy. split.
  - intros keys e rest. apply exit_on_interrupt_raised.
  - intros before rest Hb. unfold exit_on_interrupt. simpl.
    rewrite (ask_test_type_run upper year (valid_tests y) before _ Hb).
    reflexivity.
Qed.

(** For 2001: "10a" is refused, then Ctrl-C. *)
Lemma get_valid_test_type_interrupt_witness :
  snd (get_valid_test_type decimal_int ascii_upper (py "2001")
         ([Line (py "10a")] ++ Fails KeyboardInterrupt :: []))
  = Raised (SystemExit 0) [].
Proof.
  apply (proj2 (get_valid_test_type_interrupt decimal_int ascii_upper
                  (py "2001") 2001 eq_refl)).
  reflexivity.
Defined.

(** ** [find_solutions] *)

Lemma get_valid_int_returned int p lo hi m1 m2 z keys v rest :
  snd (get_valid_int int p lo hi m1 m2 z keys) = Returned v rest ->
  ((z = true /\ v = 0%Z) \/ (lo <= v <= hi)%Z) /\
  (List.length rest < List.length keys)%nat /\ incl rest keys.
Proof.
  intros H. pose proof (get_valid_int_ends int p lo hi m1 m2 z keys) as E.
  rewrite H in E. destruct E as [before [k [-> [_ Hk]]]].
  split; [apply (accepted_range int lo hi z k v Hk)|]. split.
  - rewrite length_app. simpl. lia.
  - intros x Hx. apply in_or_app. right. right. exact Hx.
Qed.


(** The extractor raises only on a container without heading. *)
Lemma extract_raises_without_heading conv soup i e :
  extract_solution_content conv soup i = Raise e ->
  e = IndexError /\
  exists mw,
    find is_mw_parser_output soup = Some mw /\
    find_all (has_name "h2") (ref_node mw) = [].
Proof.
  destruct e. intros H. split; [reflexivity|].
  destruct (find is_mw_parser_output soup) as [mw|] eqn:Hmw.
  - exists mw. split; [reflexivity|].
    destruct (find_all (has_name "h2") (ref_node mw)) as [|first h2_tags]
      eqn:Hh; [reflexivity|].
    rewrite (extract_with_anchors conv soup mw first h2_tags i Hmw Hh) in H.
    destruct ((0 <=? i)%Z && (i <? Z.of_nat (List.length h2_tags))%Z)
      eqn:G; [|discriminate].
    apply andb_true_iff in G. destruct G as [G1 G2].
    apply Z.leb_le in G1. apply Z.ltb_lt in G2.
    destruct (nth_error h2_tags (Z.to_nat i)) eqn:Hn; [discriminate|].
    apply nth_error_None in Hn. lia.
  - rewrite (extract_no_container conv soup i Hmw) in H. discriminate.
Qed.

Section SolutionLoop.

Variable int : pystr -> option Z.
Variable latex_to_text : pystr -> pystr.
Variable network : nat -> pystr -> response.
Variables (url : pystr) (max_question : Z).

Ltac split_turn H :=
  repeat match type of H with
         | context [match ?x with _ => _ end] => destruct x eqn:?
         | context [if ?x then _ else _] => destruct x eqn:?
         end.

Lemma solution_turn_again n keys w address rest :
  solution_turn int latex_to_text network url max_question n keys
  = Again w address rest ->
  (List.length rest < List.length keys)%nat /\ incl rest keys /\
  problem_address url max_question address.
Proof.
  unfold solution_turn. intros H. split_turn H; try discriminate;
    injection H as <- <- <-;
    repeat match goal with
           | E : snd (get_valid_int _ _ _ _ _ _ _ _) = Returned _ _ |- _ =>
               apply get_valid_int_returned in E;
               destruct E as [[[_ ?]|?] [? ?]]
           | E : (_ =? 0)%Z = false |- _ => apply Z.eqb_neq in E
           end;
    try contradiction;
    (split; [lia | split; [eauto using incl_tran | eexists; eauto]]).
Qed.

Lemma solution_turn_stop n keys w asked o :
  solution_turn int latex_to_text network url max_question n keys
  = Stop (w, asked, o) ->
  Forall (problem_address url max_question) asked.
Proof.
  unfold solution_turn. intros H. split_turn H; try discriminate;
    injection H as <- <- <-;
    repeat match goal with
           | E : snd (get_valid_int _ _ _ _ _ _ _ _) = Returned _ _ |- _ =>
               apply get_valid_int_returned in E;
               destruct E as [[[_ ?]|?] [? ?]]
           | E : (_ =? 0)%Z = false |- _ => apply Z.eqb_neq in E
           end;
    try contradiction;
    repeat constructor; eexists; eauto.
Qed.

Lemma solution_loop_fuel fuel : forall n keys,
  (List.length keys < fuel)%nat ->
  exists s,
    solution_loop int latex_to_text network fuel url max_question n keys
    = Some s /\
    forall fuel',
      (fuel <= fuel')%nat ->
      solution_loop int latex_to_text network fuel' url max_question n keys
      = Some s.
Proof.
  induction fuel as [|fuel IH]; intros n keys Hlen; [lia|].
  simpl.
  destruct (solution_turn int latex_to_text network url max_question n keys)
    as [s | w address rest] eqn:T.
  - exists s. split; [reflexivity|].
    intros [|fuel'] Hf; [lia|]. simpl. rewrite T. reflexivity.
  - destruct (solution_turn_again n keys w address rest T) as [Hr _].
    destruct (IH (S n) rest) as [[[w' q'] o'] [E Emore]]; [lia|].
    rewrite E. simpl. eexists. split; [reflexivity|].
    intros [|fuel'] Hf; [lia|]. simpl. rewrite T, (Emore fuel'); [|lia].
    reflexivity.
Qed.

Lemma solution_loop_addresses fuel : forall n keys w asked o,
  solution_loop int latex_to_text network fuel url max_question n keys
  = Some (w, asked, o) ->
  Forall (problem_address url max_question) asked.
Proof.
  induction fuel as [|fuel IH]; intros n keys w asked o; [discriminate|].
  simpl.
  destruct (solution_turn int latex_to_text network url max_question n keys)
    as [s | w1 address rest] eqn:T.
  - intros [= ->]. apply (solution_turn_stop n keys w asked o T).
  - destruct (solution_loop int latex_to_text network fuel url max_question
                (S n) rest) as [[[w' q'] o']|] eqn:E; [|discriminate].
    simpl. intros [= <- <- <-]. constructor.
    + apply (solution_turn_again n keys w1 address rest T).
    + apply (IH (S n) rest w' q' o' E).
Qed.

End SolutionLoop.

(** X10. [find_solutions] comes to an end or to a wait for input on every
    keyboard: each turn of its loop takes one keyboard event at least, so
    with more turns allowed than there are events the call has its result,
    and allowing more turns does not change it. *)
Theorem find_solutions_enough_fuel :
  forall (int : pystr -> option Z) (latex_to_text : pystr -> pystr)
         (network : nat -> pystr -> response) (url : pystr)
         (answers : option (list pystr)) (keys : list keyboard)
         (fuel : nat),
    (List.length keys < fuel)%nat ->
    exists s : session,
      find_solutions int latex_to_text network fuel url answers keys = Some s
      /\
      forall fuel' : nat,
        (fuel <= fuel')%nat ->
        find_solutions int latex_to_text network fuel' url answers keys
        = Some s.
Proof.
  intros int conv network url [l|] keys fuel Hlen; simpl.
  - destruct (solution_loop_fuel int conv network url
                (Z.of_nat (List.length l)) fuel O keys Hlen)
      as [[[w q] o] [E Emore]].
    rewrite E. simpl. eexists. split; [reflexivity|].
    intros fuel' Hf. rewrite (Emore fuel' Hf). reflexivity.
  - eexists. split; reflexivity.
Qed.

(** The session of six events, with seven turns allowed. *)
Lemma find_solutions_enough_fuel_witness :
  exists s : session,
    find_solutions decimal_int plain_converter network_session 7
      (py "U_Answer_Key") (Some [py "A"; py "B"]) keys_session = Some s.
Proof.
  destruct (find_solutions_enough_fuel decimal_int plain_converter
              network_session (py "U_Answer_Key") (Some [py "A"; py "B"])
              keys_session 7) as [s [E _]].
  - simpl. lia.
  - exists s. exact E.
Defined.

(** X11. Every address that [find_solutions] requests is the problem page of
    a question from 1 to the number of answers; with an empty list of
    answers it requests nothing. *)
Theorem find_solutions_addresses :
  forall (int : pystr -> option Z) (latex_to_text : pystr -> pystr)
         (network : nat -> pystr -> response) (fuel : nat) (url : pystr)
         (answers : list pystr) (keys : list keyboard)
         (written asked : list pystr) (o : outcome unit),
    find_solutions int latex_to_text network fuel url (Some answers) keys
    = Some (written, asked, o) ->
    Forall (problem_address url (Z.of_nat (List.length answers))) asked /\
    (answers = [] -> asked = []).
Proof.
  intros int conv network fuel url answers keys w asked o H.
  unfold find_solutions in H.
  destruct (solution_loop int conv network fuel url
              (Z.of_nat (List.length answers)) O keys)
    as [[[w' q'] o']|] eqn:E; [|discriminate].
  simpl in H. injection H as <- <- <-.
  pose proof (solution_loop_addresses int conv network url _ fuel O keys
                w' q' o' E) as F.
  split; [exact F|].
  intros ->. destruct q' as [|a q'']; [reflexivity|].
  inversion F as [|x l [question [Hq _]] _]. simpl in Hq. lia.
Qed.

(** The three requests of the session. *)
Lemma find_solutions_addresses_witness :
  Forall (problem_address (py "U_Answer_Key") 2)
    [py "U_Problems/Problem_1"; py "U_Problems/Problem_2";
     py "U_Problems/Problem_1"].
Proof.
  apply (proj1 (find_solutions_addresses decimal_int plain_converter
                  network_session 7 (py "U_Answer_Key") [py "A"; py "B"]
                  keys_session _ _ _ eq_refl)).
Defined.

(** X13. After a call of [scrape_answers] that failed, for the network or
    for the shape of the page, [find_solutions] on what it returned raises
    [TypeError] at once, before it writes, reads or requests anything. *)
Theorem find_solutions_after_failed_scrape :
  forall (int : pystr -> option Z) (latex_to_text : pystr -> pystr)
         (network : nat -> pystr -> response) (fuel : nat)
         (answer_key : string) (resp : response) (url : pystr)
         (keys : list keyboard),
    (forall soup, resp = Fetched soup -> select_answer_items soup = []) ->
    find_solutions int latex_to_text network fuel url
      (snd (scrape_answers answer_key resp)) keys
    = Some ([], [], Raised TypeError keys).
Proof.
  intros int conv network fuel u resp url keys H.
  destruct resp as [soup | e].
  - rewrite (scrape_answers_not_found u soup (H soup eq_refl)). reflexivity.
  - reflexivity.
Qed.

(** After a page without the answer list. *)
Lemma find_solutions_after_failed_scrape_witness :
  find_solutions decimal_int plain_converter network_session 7
    (py "U_Answer_Key") (snd (scrape_answers "U" (Fetched page_no_list)))
    keys_session
  = Some ([], [], Raised TypeError keys_session).
Proof.
  apply find_solutions_after_failed_scrape.
  intros soup [= <-]. reflexivity.
Defined.

(** ** The converter that raises *)

Section RaisingContent.

Variable converter : pystr -> option pystr.





(** With a converter that never raises, the extractor is the one of the
    spec. *)
Variable latex_to_text : pystr -> pystr.
Hypothesis never_raises : forall markup,
  converter markup = Some (latex_to_text markup).

Lemma raising_visit_total sc elem :
  Raising.visit converter sc elem = Raising.Done (visit latex_to_text sc elem).
Proof.
  unfold Raising.visit, visit. rewrite never_raises.
  destruct (has_name "img" elem); [reflexivity|].
  destruct elem as [s | | c s]; try reflexivity;
    destruct (nonempty (strip s)); reflexivity.
Qed.

Lemma raising_visit_all_total elems : forall sc,
  Raising.visit_all converter elems sc
  = Raising.Done (fold_left (visit latex_to_text) elems sc).
Proof.
  induction elems as [|elem rest IH]; intros sc; simpl; [reflexivity|].
  rewrite raising_visit_total. apply IH.
Qed.

Lemma raising_walk_total siblings : forall sc,
  Raising.walk_siblings converter siblings sc
  = Raising.Done (walk_siblings latex_to_text siblings sc).
Proof.
  induction siblings as [|sibling rest IH]; intros sc; simpl; [reflexivity|].
  destruct (truthy sibling); simpl; [|reflexivity].
  destruct (has_name "h2" sibling); [reflexivity|].
  destruct (is_block sibling).
  - rewrite raising_visit_all_total. apply IH.
  - apply IH.
Qed.

Lemma raising_extract_total soup i :
  Raising.extract_solution_content converter soup i
  = match extract_solution_content latex_to_text soup i with
    | Ok content => Raising.Done content
    | Raise e => Raising.Failed (Raising.Index e)
    end.
Proof.
  unfold Raising.extract_solution_content, extract_solution_content.
  destruct (find is_mw_parser_output soup) as [mw|]; [|reflexivity].
  destruct (negb (truthy (ref_node mw))); [reflexivity|].
  destruct (section_anchors (ref_node mw)) as [h2_tags|e]; [|reflexivity].
  destruct (negb ((0 <=? i)%Z && (i <? Z.of_nat (List.length h2_tags))%Z));
    [reflexivity|].
  destruct (nth_error h2_tags (Z.to_nat i)); [|reflexivity].
  apply raising_walk_total.
Qed.

End RaisingContent.

Section RaisingLoop.

Variable int : pystr -> option Z.
Variable converter : pystr -> option pystr.
Variable network : nat -> pystr -> response.
Variables (url : pystr) (max_question : Z).

Ltac split_turn H :=
  repeat match type of H with
         | context [match ?x with _ => _ end] => destruct x eqn:?
         | context [if ?x then _ else _] => destruct x eqn:?
         end.




(** With a converter that never raises, the calls are those of the spec. *)
Variable latex_to_text : pystr -> pystr.
Hypothesis never_raises : forall markup,
  converter markup = Some (latex_to_text markup).

Lemma raising_turn_total n keys :
  Raising.solution_turn int converter network url max_question n keys
  = solution_turn int latex_to_text network url max_question n keys.
Proof.
  unfold Raising.solution_turn, solution_turn.
  repeat match goal with
         | |- context [Raising.extract_solution_content _ ?soup ?i] =>
             rewrite (raising_extract_total converter latex_to_text
                        never_raises soup i);
             destruct (extract_solution_content latex_to_text soup i)
         | |- match ?x with _ => _ end = _ => destruct x
         | |- (if ?x then _ else _) = _ => destruct x
         end;
    reflexivity.
Qed.

Lemma raising_loop_total fuel : forall n keys,
  Raising.solution_loop int converter network fuel url max_question n keys
  = solution_loop int latex_to_text network fuel url max_question n keys.
Proof.
  induction fuel as [|fuel IH]; intros n keys; simpl; [reflexivity|].
  rewrite raising_turn_total.
  destruct (solution_turn int latex_to_text network url max_question n keys);
    [reflexivity|].
  rewrite IH. reflexivity.
Qed.

End RaisingLoop.

Lemma raising_find_solutions_total int converter latex_to_text network fuel
  url answers keys :
  (forall markup, converter markup = Some (latex_to_text markup)) ->
  Raising.find_solutions int converter network fuel url answers keys
  = find_solutions int latex_to_text network fuel url answers keys.
Proof.
  intros H. unfold Raising.find_solutions, find_solutions.
  destruct answers as [l|]; [|reflexivity].
  rewrite (raising_loop_total int converter network url _ latex_to_text H).
  reflexivity.
Qed.



(** ** More on the addresses and on the walk *)

(** X14. For one answer-key address, the problem pages of two different
    questions have different addresses. *)
Theorem problem_url_tells_question :
  forall (url : pystr) (question1 question2 : Z),
    problem_url url question1 = problem_url url question2 ->
    question1 = question2.
Proof.
  intros url q1 q2 H. unfold problem_url in H.
  apply app_inv_head in H. apply app_inv_head in H.
  apply str_of_int_injective, H.
Qed.

(** The same address, the same question. *)
Lemma problem_url_tells_question_witness : 7%Z = 7%Z.
Proof.
  apply (problem_url_tells_question (py "U_Answer_Key") 7 7). reflexivity.
Defined.

Lemma walk_siblings_extends conv siblings : forall acc,
  exists more, walk_siblings conv siblings acc = acc ++ more.
Proof.
  induction siblings as [|s rest IH]; intros acc; simpl.
  - exists []. symmetry. apply app_nil_r.
  - destruct (truthy s); simpl; [|exists []; symmetry; apply app_nil_r].
    destruct (has_name "h2" s); [exists []; symmetry; apply app_nil_r|].
    destruct (is_block s).
    + destruct (IH (fold_left (visit conv) (descendants s) acc ++ [newline]))
        as [more ->].
      rewrite fold_visit, <- !app_assoc. eexists. reflexivity.
    + destruct (IH (acc ++ [newline])) as [more ->].
      rewrite <- app_assoc. eexists. reflexivity.
Qed.

Lemma walk_siblings_empty conv siblings :
  walk_siblings conv siblings [] = [] <->
  match siblings with
  | [] => True
  | s :: _ => truthy s = false \/ has_name "h2" s = true
  end.
Proof.
  destruct siblings as [|s rest]; [split; reflexivity|].
  destruct (truthy s) eqn:Ht; [|simpl; rewrite Ht; simpl; tauto].
  destruct (has_name "h2" s) eqn:Hh;
    [simpl; rewrite Ht, Hh; simpl; tauto|].
  rewrite (walk_step conv s rest [] Ht Hh).
  destruct (walk_siblings_extends conv rest
              ([] ++ sibling_fragments conv s ++ [newline])) as [more ->].
  split.
  - intros H. simpl in H. apply app_eq_nil in H. destruct H as [H _].
    apply app_eq_nil in H. destruct H as [_ H]. discriminate.
  - intros [H|H]; discriminate.
Qed.

(** X15. For an index in range, [extract_solution_content] returns the empty
    list exactly when nothing was walked: the selected heading has no next
    sibling, or its next sibling is an [h2] heading (or an empty string).
    Any sibling walked leaves its newline at least, so a section without
    text is not an empty list. *)
Theorem extract_empty_without_sibling :
  forall (latex_to_text : pystr -> pystr) (soup : node) (mw first : tagref)
         (h2_tags : list tagref) (section_index : Z) (selected_h2 : tagref),
    find is_mw_parser_output soup = Some mw ->
    find_all (has_name "h2") (ref_node mw) = first :: h2_tags ->
    (0 <= section_index)%Z ->
    nth_error h2_tags (Z.to_nat section_index) = Some selected_h2 ->
    (extract_solution_content latex_to_text soup section_index = Ok [] <->
     match ref_next selected_h2 with
     | [] => True
     | s :: _ => truthy s = false \/ has_name "h2" s = true
     end).
Proof.
  intros conv soup mw first h2_tags i sel Hmw Hh2 Hi Hsel.
  rewrite (extract_with_anchors conv soup mw first h2_tags i Hmw Hh2).
  assert (Hlt : (Z.to_nat i < List.length h2_tags)%nat).
  { apply nth_error_Some. rewrite Hsel. discriminate. }
  replace ((0 <=? i)%Z && (i <? Z.of_nat (List.length h2_tags))%Z)
    with true.
  - rewrite Hsel, <- (walk_siblings_empty conv (ref_next sel)).
    split; [intros [= ->]; reflexivity | intros ->; reflexivity].
  - symmetry. apply andb_true_iff. split.
    + apply Z.leb_le. exact Hi.
    + apply Z.ltb_lt. lia.
Qed.

(** A section followed at once by the heading of the next one. *)
Lemma extract_empty_without_sibling_witness :
  extract_solution_content plain_converter page_empty_section 0 = Ok [].
Proof.
  refine (proj2 (extract_empty_without_sibling plain_converter
                   page_empty_section _ _ _ 0 _
                   eq_refl eq_refl _ eq_refl) _).
  - lia.
  - right. reflexivity.
Defined.
